(** * SC-02C lights HAL: a shallow embedding of [lights.c]

    The module maps three logical lights (display backlight, touch-key
    backlight, notification LED) onto integer writes to sysfs control
    files.  The embedding follows the C source function by function:

    - [Codec]: [is_lit] and [rgb_to_brightness], on 32-bit machine integers
      carried by [Z] with the wrap-around written out;
    - [Machine]: the process state (module globals, the function-static
      [already_warned], per-thread [errno], the kernel's answers to
      [open]/[write]/[close], the log and the heap of device handles) and a
      small monad of primitive effects in which the C functions are written;
    - [Lights]: [write_int], the three [set_light_*] handlers,
      [close_lights] and [open_lights];
    - [Threads]: an interleaving semantics of several caller threads;
    - [Post]: the vocabulary in which the behaviour of [write_int] and of
      the handlers is stated.

    The properties follow the definitions. *)

From Stdlib Require Import ZArith List String Ascii Bool Lia.
From Stdlib Require Import DecimalString.
From Stdlib Require DecimalFacts DecimalPos DecimalZ.
Import ListNotations.
Open Scope Z_scope.

(** ** Machine integers *)

Module Int32.

Definition modulus : Z := 2 ^ 32.

(** Value of an expression of type [unsigned int]. *)
Definition to_uint (z : Z) : Z := z mod modulus.

(** Conversion to [int] (two's complement, as on the ARM target). *)
Definition to_int (z : Z) : Z :=
  let u := z mod modulus in
  if u <? 2 ^ 31 then u else u - modulus.

Definition is_uint (z : Z) : Prop := 0 <= z < modulus.

(** A C condition: any non-zero value counts as true. *)
Definition truthy (z : Z) : bool := negb (z =? 0).

End Int32.

(** ** The light state handed in by the caller ([struct light_state_t]) *)

Record light_state_t : Type := mk_light_state {
  color          : Z;   (* unsigned int, 0xAARRGGBB *)
  flashMode      : Z;
  flashOnMS      : Z;
  flashOffMS     : Z;
  brightnessMode : Z
}.

(** A state whose [color] is a value of its C type. *)
Definition wf_light_state (s : light_state_t) : Prop := Int32.is_uint (color s).

Definition state_of_color (c : Z) : light_state_t := mk_light_state c 0 0 0 0.

(** ** Colour / brightness codec *)

Module Codec.

(** [return state->color & 0xffffffff;] with the result converted to [int]. *)
Definition is_lit (state : light_state_t) : Z :=
  Int32.to_int (Z.land (color state) 0xffffffff).

(** [int color = state->color & 0x00ffffff;
     return ((77*((color>>16) & 0x00ff))
           + (150*((color>>8) & 0x00ff)) + (29*(color & 0x00ff))) >> 8;] *)
Definition rgb_to_brightness (state : light_state_t) : Z :=
  let color := Int32.to_int (Z.land (color state) 0x00ffffff) in
  Z.shiftr (77 * (Z.land (Z.shiftr color 16) 0x00ff)
            + 150 * (Z.land (Z.shiftr color 8) 0x00ff)
            + 29 * (Z.land color 0x00ff)) 8.

(** The test [brightness + state->color == 0] of the notification handler:
    [int + unsigned int] is computed as [unsigned int]. *)
Definition sum_is_zero (brightness : Z) (state : light_state_t) : bool :=
  Int32.to_uint (brightness + color state) =? 0.

(** Bytes 2, 1 and 0 of a packed colour. *)
Definition red   (c : Z) : Z := (c / 65536) mod 256.
Definition green (c : Z) : Z := (c / 256) mod 256.
Definition blue  (c : Z) : Z := c mod 256.

End Codec.

(** ** The process: globals, libc and kernel, log, heap *)

Module Machine.

(** Caller threads are numbered. *)
Definition tid : Type := nat.

(** Answer of the kernel to one system call: a non-negative result, or
    failure ([-1] returned, [errno] set to a positive error number). *)
Inductive sys_ret : Type :=
| SysOk  (v : N)
| SysErr (e : positive).

Inductive log_level : Type := VERBOSE | ERROR.

(** One constructor per logging call site of the source. *)
Inductive log_msg : Type :=
| Msg_write_int (path : string) (value : Z)
| Msg_open_failed (path : string)
| Msg_notifications_color (c : Z)
| Msg_enable_bl
| Msg_disable_bl
| Msg_close_light
| Msg_cmd_name (name : string).

(** What the process does to the outside world, oldest first. *)
Inductive event : Type :=
| EvLog   (lvl : log_level) (m : log_msg)
| EvOpen  (path : string) (ret : Z)
| EvWrite (fd : Z) (path : option string) (buf : string) (ret : Z)
| EvClose (fd : Z) (ret : Z).

(** The three [set_light] callbacks a handle can be bound to. *)
Inductive handler : Type :=
| Set_light_backlight
| Set_light_buttons
| Set_light_notifications.

(** [struct light_device_t]: the [hw_device_t] header and the callback.
    The [close] slot always holds [close_lights]. *)
Record light_device_t : Type := mk_light_device {
  common_tag     : Z;
  common_version : Z;
  common_module  : Z;
  common_close   : bool;            (* [true]: points to [close_lights] *)
  set_light      : option handler   (* [None]: null pointer *)
}.

Definition zeroed_device : light_device_t := mk_light_device 0 0 0 false None.

Definition with_tag v d :=
  mk_light_device v (common_version d) (common_module d) (common_close d) (set_light d).
Definition with_version v d :=
  mk_light_device (common_tag d) v (common_module d) (common_close d) (set_light d).
Definition with_module v d :=
  mk_light_device (common_tag d) (common_version d) v (common_close d) (set_light d).
Definition with_close d :=
  mk_light_device (common_tag d) (common_version d) (common_module d) true (set_light d).
Definition with_set_light h d :=
  mk_light_device (common_tag d) (common_version d) (common_module d) (common_close d)
                  (Some h).

Record world : Type := mk_world {
  g_init         : bool;            (* [pthread_once] routine already run *)
  g_lock         : option tid;      (* owner of the mutex, if locked *)
  g_notification : light_state_t;
  g_backlight    : Z;
  g_buttons      : Z;
  already_warned : Z;               (* function-static of [write_int] *)
  errno          : tid -> Z;        (* thread-local *)
  kernel         : nat -> sys_ret;  (* answer to the n-th system call *)
  syscalls       : nat;             (* system calls made so far *)
  fdtab          : list (Z * string);            (* open descriptors *)
  trace          : list event;
  heap           : list (Z * light_device_t)     (* live [malloc] blocks *)
}.

Definition set_g_init v w :=
  mk_world v (g_lock w) (g_notification w) (g_backlight w) (g_buttons w)
    (already_warned w) (errno w) (kernel w) (syscalls w) (fdtab w) (trace w) (heap w).
Definition set_g_lock v w :=
  mk_world (g_init w) v (g_notification w) (g_backlight w) (g_buttons w)
    (already_warned w) (errno w) (kernel w) (syscalls w) (fdtab w) (trace w) (heap w).
Definition set_g_notification v w :=
  mk_world (g_init w) (g_lock w) v (g_backlight w) (g_buttons w)
    (already_warned w) (errno w) (kernel w) (syscalls w) (fdtab w) (trace w) (heap w).
Definition set_g_backlight v w :=
  mk_world (g_init w) (g_lock w) (g_notification w) v (g_buttons w)
    (already_warned w) (errno w) (kernel w) (syscalls w) (fdtab w) (trace w) (heap w).
Definition set_g_buttons v w :=
  mk_world (g_init w) (g_lock w) (g_notification w) (g_backlight w) v
    (already_warned w) (errno w) (kernel w) (syscalls w) (fdtab w) (trace w) (heap w).
Definition set_already_warned v w :=
  mk_world (g_init w) (g_lock w) (g_notification w) (g_backlight w) (g_buttons w)
    v (errno w) (kernel w) (syscalls w) (fdtab w) (trace w) (heap w).
Definition set_errno (t : tid) (v : Z) w :=
  mk_world (g_init w) (g_lock w) (g_notification w) (g_backlight w) (g_buttons w)
    (already_warned w) (fun t' => if Nat.eqb t' t then v else errno w t')
    (kernel w) (syscalls w) (fdtab w) (trace w) (heap w).
Definition tick w :=
  mk_world (g_init w) (g_lock w) (g_notification w) (g_backlight w) (g_buttons w)
    (already_warned w) (errno w) (kernel w) (S (syscalls w)) (fdtab w) (trace w) (heap w).
Definition set_fdtab v w :=
  mk_world (g_init w) (g_lock w) (g_notification w) (g_backlight w) (g_buttons w)
    (already_warned w) (errno w) (kernel w) (syscalls w) v (trace w) (heap w).
Definition emit (e : event) w :=
  mk_world (g_init w) (g_lock w) (g_notification w) (g_backlight w) (g_buttons w)
    (already_warned w) (errno w) (kernel w) (syscalls w) (fdtab w) (trace w ++ [e]) (heap w).
Definition set_heap v w :=
  mk_world (g_init w) (g_lock w) (g_notification w) (g_backlight w) (g_buttons w)
    (already_warned w) (errno w) (kernel w) (syscalls w) (fdtab w) (trace w) v.

(** The process right after the module is loaded: the static initialisers
    of the source ([g_backlight = 255], [g_buttons = 0], a zeroed
    [g_notification], an unlocked mutex), nothing logged, nothing open. *)
Definition initial_world (k : nat -> sys_ret) : world :=
  mk_world false None (mk_light_state 0 0 0 0 0) 255 0 0
           (fun _ => 0) k O [] [] [].

(** A kernel that refuses every system call with [EACCES], and one that
    lets every call through. *)
Definition refusing_kernel : nat -> sys_ret := fun _ => SysErr 13.
Definition willing_kernel : nat -> sys_ret := fun _ => SysOk 3.

(** *** Primitive effects *)

Inductive action : Type -> Type :=
| Pthread_mutex_lock    : action unit
| Pthread_mutex_unlock  : action unit
| Pthread_mutex_init    : action unit
| Pthread_once_enter    : action bool
| Store_g_notification (s : light_state_t) : action unit
| Store_g_backlight (v : Z)  : action unit
| Store_g_buttons (v : Z)    : action unit
| Load_already_warned        : action Z
| Store_already_warned (v : Z) : action unit
| Read_errno                 : action Z
| Sys_open  (path : string)  : action Z
| Sys_write (fd : Z) (buf : string) (count : Z) : action Z
| Sys_close (fd : Z)         : action Z
| Log (lvl : log_level) (m : log_msg) : action unit
| Malloc_device              : action Z
| Memset_device (p : Z)      : action unit
| Store_common_tag (p : Z) (v : Z)     : action unit
| Store_common_version (p : Z) (v : Z) : action unit
| Store_common_module (p : Z) (v : Z)  : action unit
| Store_common_close (p : Z)           : action unit
| Store_set_light (p : Z) (h : handler) : action unit
| Free_device (p : Z)        : action unit.

Fixpoint lookup_fd (fd : Z) (tab : list (Z * string)) : option string :=
  match tab with
  | [] => None
  | (fd', path) :: tab' => if fd' =? fd then Some path else lookup_fd fd tab'
  end.

Definition remove_key {V : Type} (k : Z) (l : list (Z * V)) : list (Z * V) :=
  filter (fun kv => negb (fst kv =? k)) l.

Fixpoint update_key {V : Type} (k : Z) (f : V -> V) (l : list (Z * V)) : list (Z * V) :=
  match l with
  | [] => []
  | (k', v) :: l' =>
      if k' =? k then (k', f v) :: l' else (k', v) :: update_key k f l'
  end.

(** An address that no live block has; never the null pointer. *)
Definition fresh_ptr (h : list (Z * light_device_t)) : Z :=
  1 + fold_right (fun kv m => Z.max (fst kv) m) 0 h.

(** The kernel's answer to the next system call of thread [t]. *)
Definition syscall (t : tid) (w : world) : Z * world :=
  match kernel w (syscalls w) with
  | SysOk v  => (Z.of_N v, tick w)
  | SysErr e => (-1, set_errno t (Zpos e) (tick w))
  end.

(** Whether an address is that of a live [malloc] block. *)
Definition is_live {V : Type} (p : Z) (h : list (Z * V)) : bool :=
  existsb (fun kv => fst kv =? p) h.

(** Effect of one primitive of thread [t]; [None] when the thread cannot
    go on: the mutex is held, or the behaviour is undefined (it unlocks a
    mutex it does not hold, or frees a block that is not live; [free] of
    the null pointer does nothing).  The stores into a handle are only
    issued by [open_lights], on the block it has just allocated. *)
Definition do_action {X : Type} (t : tid) (a : action X) (w : world)
  : option (X * world) :=
  match a in action X return option (X * world) with
  | Pthread_mutex_lock =>
      match g_lock w with
      | None => Some (tt, set_g_lock (Some t) w)
      | Some _ => None
      end
  | Pthread_mutex_unlock =>
      match g_lock w with
      | Some o => if Nat.eqb o t then Some (tt, set_g_lock None w) else None
      | None => None
      end
  | Pthread_mutex_init => Some (tt, set_g_lock None w)
  | Pthread_once_enter =>
      if g_init w then Some (false, w) else Some (true, set_g_init true w)
  | Store_g_notification s => Some (tt, set_g_notification s w)
  | Store_g_backlight v => Some (tt, set_g_backlight v w)
  | Store_g_buttons v => Some (tt, set_g_buttons v w)
  | Load_already_warned => Some (already_warned w, w)
  | Store_already_warned v => Some (tt, set_already_warned v w)
  | Read_errno => Some (errno w t, w)
  | Sys_open path =>
      let (r, w1) := syscall t w in
      let w2 := if 0 <=? r then set_fdtab ((r, path) :: fdtab w1) w1 else w1 in
      Some (r, emit (EvOpen path r) w2)
  | Sys_write fd buf count =>
      let (r, w1) := syscall t w in
      Some (r, emit (EvWrite fd (lookup_fd fd (fdtab w1)) buf r) w1)
  | Sys_close fd =>
      let (r, w1) := syscall t w in
      let r' := if 0 <=? r then 0 else r in
      Some (r', emit (EvClose fd r') (set_fdtab (remove_key fd (fdtab w1)) w1))
  | Log lvl m => Some (tt, emit (EvLog lvl m) w)
  | Malloc_device =>
      let p := fresh_ptr (heap w) in
      Some (p, set_heap ((p, zeroed_device) :: heap w) w)
  | Memset_device p =>
      Some (tt, set_heap (update_key p (fun _ => zeroed_device) (heap w)) w)
  | Store_common_tag p v =>
      Some (tt, set_heap (update_key p (with_tag v) (heap w)) w)
  | Store_common_version p v =>
      Some (tt, set_heap (update_key p (with_version v) (heap w)) w)
  | Store_common_module p v =>
      Some (tt, set_heap (update_key p (with_module v) (heap w)) w)
  | Store_common_close p =>
      Some (tt, set_heap (update_key p with_close (heap w)) w)
  | Store_set_light p h =>
      Some (tt, set_heap (update_key p (with_set_light h) (heap w)) w)
  | Free_device p =>
      if p =? 0 then Some (tt, w)
      else if is_live p (heap w)
           then Some (tt, set_heap (remove_key p (heap w)) w)
           else None
  end.

(** *** Programs over the primitives *)

Inductive prog (A : Type) : Type :=
| Ret (a : A)
| Vis (X : Type) (e : action X) (k : X -> prog A).

Arguments Ret {A} a.
Arguments Vis {A X} e k.

Fixpoint bind {A B : Type} (p : prog A) (f : A -> prog B) : prog B :=
  match p with
  | Ret a => f a
  | Vis e k => Vis e (fun x => bind (k x) f)
  end.

Definition perform {X : Type} (e : action X) : prog X := Vis e Ret.

(** Run a program to completion on behalf of thread [t]. *)
Fixpoint run {A : Type} (t : tid) (p : prog A) (w : world) : option (A * world) :=
  match p with
  | Ret a => Some (a, w)
  | Vis e k =>
      match do_action t e w with
      | Some (x, w') => run t (k x) w'
      | None => None
      end
  end.

(** *** Reading a trace *)

(** The paths the process tried to open. *)
Fixpoint opens_of (tr : list event) : list string :=
  match tr with
  | [] => []
  | EvOpen path _ :: tr' => path :: opens_of tr'
  | _ :: tr' => opens_of tr'
  end.

(** The [write] calls: the file behind the descriptor and the bytes. *)
Fixpoint writes_of (tr : list event) : list (option string * string) :=
  match tr with
  | [] => []
  | EvWrite _ path buf _ :: tr' => (path, buf) :: writes_of tr'
  | _ :: tr' => writes_of tr'
  end.

(** The warning of [write_int] about a control file it could not open. *)
Definition is_open_warning (e : event) : bool :=
  match e with
  | EvLog ERROR (Msg_open_failed _) => true
  | _ => false
  end.

Definition open_warnings (tr : list event) : nat :=
  List.length (filter is_open_warning tr).

(** Whether the kernel lets the next [open], and the [write] after it,
    succeed. *)
Definition next_ok (w : world) : bool :=
  match kernel w (syscalls w) with SysOk _ => true | SysErr _ => false end.
Definition second_ok (w : world) : bool :=
  match kernel w (S (syscalls w)) with SysOk _ => true | SysErr _ => false end.

End Machine.

Declare Scope prog_scope.
Delimit Scope prog_scope with prog.
Notation "x <- p ;; q" := (Machine.bind p (fun x => q))
  (at level 61, p at next level, right associativity) : prog_scope.
Notation "p ;; q" := (Machine.bind p (fun _ => q))
  (at level 61, right associativity) : prog_scope.

(** ** The functions of [lights.c] *)

Module Lights.
Import Machine.
Import Int32.
Local Open Scope prog_scope.

(* GENERIC_BLN *)
Definition BLN_LIGHT_ON   : Z := 1.
Definition BLN_LIGHT_OFF  : Z := 2.
Definition BLN_NOTIFY_ON  : Z := 1.
Definition BLN_NOTIFY_OFF : Z := 0.

(* CM7 LED NOTIFICATIONS BACKLIGHT *)
Definition CM7_ENABLE_BL  : Z := 1.
Definition CM7_DISABLE_BL : Z := 2.

Definition LCD_FILE : string :=
  "/sys/class/backlight/pwm-backlight/brightness"%string.
Definition KEYBOARD_FILE : string :=
  "/sys/class/leds/keyboard-backlight/brightness"%string.
Definition BUTTON_FILE : string :=
  "/sys/class/misc/melfas_touchkey/brightness"%string.
Definition NOTIFICATION_FILE : string :=
  "/sys/class/misc/backlightnotification/notification_led"%string.
Definition CM7_NOTIFICATION_FILE : string :=
  "/sys/class/misc/notification/led"%string.

(** The primitives under the names the source calls them by. *)
Definition pthread_mutex_lock   : prog unit := perform Pthread_mutex_lock.
Definition pthread_mutex_unlock : prog unit := perform Pthread_mutex_unlock.
Definition pthread_mutex_init   : prog unit := perform Pthread_mutex_init.
Definition LOGV (m : log_msg) : prog unit := perform (Log VERBOSE m).
Definition LOGE (m : log_msg) : prog unit := perform (Log ERROR m).

(** [pthread_once(&g_init, routine)]. *)
Definition pthread_once (routine : prog unit) : prog unit :=
  first <- perform Pthread_once_enter ;;
  if first : bool then routine else Ret tt.

(** The newline character. *)
Definition nl : string := String (ascii_of_nat 10) EmptyString.

(** [sprintf(buffer, "%d\n", value)]: the characters put in [buffer]. *)
Definition sprintf_d_nl (value : Z) : string :=
  String.append (NilZero.string_of_int (Z.to_int value)) nl.

Definition init_globals : prog unit :=
  (* init the mutex *)
  pthread_mutex_init.

(** Logging is taken not to disturb [errno]. *)
Definition write_int (path : string) (value : Z) : prog Z :=
  LOGV (Msg_write_int path value) ;;
  fd <- perform (Sys_open path) ;;
  if 0 <=? fd then
    let buffer := sprintf_d_nl value in
    let bytes := Z.of_nat (String.length buffer) in
    amt <- perform (Sys_write fd buffer bytes) ;;
    perform (Sys_close fd) ;;
    if amt =? -1 then (e <- perform Read_errno ;; Ret (- e)) else Ret 0
  else
    warned <- perform Load_already_warned ;;
    (if warned =? 0 then
       LOGE (Msg_open_failed path) ;;
       perform (Store_already_warned 1)
     else Ret tt) ;;
    e <- perform Read_errno ;;
    Ret (- e).

Definition is_lit := Codec.is_lit.
Definition rgb_to_brightness := Codec.rgb_to_brightness.

Definition set_light_backlight (dev : Z) (state : light_state_t) : prog Z :=
  let brightness := rgb_to_brightness state in
  pthread_mutex_lock ;;
  perform (Store_g_backlight brightness) ;;
  err <- write_int LCD_FILE brightness ;;
  pthread_mutex_unlock ;;
  Ret err.

Definition set_light_buttons (dev : Z) (state : light_state_t) : prog Z :=
  let on := is_lit state in
  pthread_mutex_lock ;;
  perform (Store_g_buttons on) ;;
  (* for BLN 1(on) or 2(off) *)
  err <- write_int BUTTON_FILE (if truthy on then BLN_LIGHT_ON else BLN_LIGHT_OFF) ;;
  pthread_mutex_unlock ;;
  Ret err.

Definition set_light_notifications (dev : Z) (state : light_state_t) : prog Z :=
  pthread_mutex_lock ;;
  perform (Store_g_notification state) ;;
  LOGE (Msg_notifications_color (color state)) ;;
  err <- write_int NOTIFICATION_FILE
           (if truthy (is_lit state) then BLN_NOTIFY_ON else BLN_NOTIFY_OFF) ;;
  let brightness := rgb_to_brightness state in
  err <- (if Codec.sum_is_zero brightness state || (100 <? brightness) then
            if truthy (Z.land (color state) 0x00ffffff) then
              LOGV Msg_enable_bl ;;
              write_int CM7_NOTIFICATION_FILE CM7_ENABLE_BL
            else
              LOGV Msg_disable_bl ;;
              write_int CM7_NOTIFICATION_FILE CM7_DISABLE_BL
          else Ret err) ;;
  pthread_mutex_unlock ;;
  Ret 0.

Definition close_lights (dev : Z) : prog Z :=
  LOGV Msg_close_light ;;
  (if truthy dev then perform (Free_device dev) else Ret tt) ;;
  Ret 0.

(** Constants of the platform headers ([hardware/lights.h],
    [hardware/hardware.h], [errno.h]), which are not part of this
    repository. *)
Section Platform.

Variables LIGHT_ID_BACKLIGHT LIGHT_ID_BUTTONS LIGHT_ID_NOTIFICATIONS : string.
Variable HARDWARE_DEVICE_TAG : Z.
Variable EINVAL : Z.

(** The first part of [open_lights]: the callback chosen for [name]. *)
Definition select_handler (name : string) : option handler :=
  if String.eqb LIGHT_ID_BACKLIGHT name then Some Set_light_backlight
  else if String.eqb LIGHT_ID_BUTTONS name then Some Set_light_buttons
  else if String.eqb LIGHT_ID_NOTIFICATIONS name then Some Set_light_notifications
  else None.

(** Open a new instance of a lights device using name.  The result is
    the returned code and what was stored through [device], if anything. *)
Definition open_lights (module : Z) (name : string) : prog (Z * option Z) :=
  LOGE (Msg_cmd_name name) ;;
  match select_handler name with
  | None => Ret (- EINVAL, None)
  | Some set_light =>
      pthread_once init_globals ;;
      dev <- perform Malloc_device ;;
      perform (Memset_device dev) ;;
      perform (Store_common_tag dev HARDWARE_DEVICE_TAG) ;;
      perform (Store_common_version dev 0) ;;
      perform (Store_common_module dev module) ;;
      perform (Store_common_close dev) ;;
      perform (Store_set_light dev set_light) ;;
      Ret (0, Some dev)
  end.

End Platform.

(** Callers, each on the thread named with its call, that make one
    [write_int] call after the other; the results are kept. *)
Fixpoint run_write_int_calls (calls : list (tid * string * Z)) (w : world)
  : option (list Z * world) :=
  match calls with
  | [] => Some ([], w)
  | (t, path, value) :: rest =>
      match run t (write_int path value) w with
      | Some (r, w1) =>
          match run_write_int_calls rest w1 with
          | Some (rs, w') => Some (r :: rs, w')
          | None => None
          end
      | None => None
      end
  end.

(** Dispatch through a handle's callback: [dev->set_light(dev, state)]. *)
Definition call_handler (h : handler) (dev : Z) (state : light_state_t) : prog Z :=
  match h with
  | Set_light_backlight => set_light_backlight dev state
  | Set_light_buttons => set_light_buttons dev state
  | Set_light_notifications => set_light_notifications dev state
  end.

End Lights.

(** ** Several caller threads *)

Module Threads.
Import Machine Lights.
Local Open Scope prog_scope.

(** One call through an open handle: the callback, [dev] and [state]. *)
Definition call : Type := handler * Z * light_state_t.

(** A caller thread makes [set_light] calls one after the other. *)
Fixpoint thread_prog (calls : list call) : prog unit :=
  match calls with
  | [] => Ret tt
  | (h, dev, state) :: rest => call_handler h dev state ;; thread_prog rest
  end.

Inductive kind : Type := KLock | KUnlock | KAccess.

Definition kind_of {X : Type} (a : action X) : kind :=
  match a with
  | Pthread_mutex_lock => KLock
  | Pthread_mutex_unlock => KUnlock
  | _ => KAccess
  end.

(** A step of the process: which thread, and what sort of primitive. *)
Definition label : Type := tid * kind.

Definition config : Type := list (prog unit) * world.

Fixpoint replace {A : Type} (n : nat) (x : A) (l : list A) : list A :=
  match l, n with
  | [], _ => []
  | _ :: l', O => x :: l'
  | y :: l', S n' => y :: replace n' x l'
  end.

(** Thread [t] performs its next primitive, if it has one and can go on. *)
Definition step (t : tid) (c : config) : option (label * config) :=
  match nth_error (fst c) t with
  | Some (Vis e k) =>
      match do_action t e (snd c) with
      | Some (x, w') => Some ((t, kind_of e), (replace t (k x) (fst c), w'))
      | None => None
      end
  | _ => None
  end.

(** The process under a schedule: the thread named next moves; one that
    is blocked or has finished is passed over. *)
Fixpoint run_schedule (sched : list tid) (c : config) : list label * config :=
  match sched with
  | [] => ([], c)
  | t :: rest =>
      match step t c with
      | Some (l, c') =>
          let (ls, c'') := run_schedule rest c' in (l :: ls, c'')
      | None => run_schedule rest c
      end
  end.

(** A run is serialized when it is a succession of critical sections:
    a lock, then steps of the locking thread only, then its unlock; no
    step falls outside a critical section.  [owner] is the thread inside
    its critical section at the start. *)
Fixpoint serialized (owner : option tid) (ls : list label) : bool :=
  match ls with
  | [] => true
  | (t, k) :: ls' =>
      match owner, k with
      | None, KLock => serialized (Some t) ls'
      | Some o, KUnlock => Nat.eqb o t && serialized None ls'
      | Some o, KAccess => Nat.eqb o t && serialized owner ls'
      | _, _ => false
      end
  end.

(** Two caller threads, one setting the backlight and one the
    notification LED, and a schedule that lets them take turns. *)
Definition two_callers : list (list call) :=
  [ [(Set_light_backlight, 1, state_of_color 0x00FFFFFF)];
    [(Set_light_notifications, 2, state_of_color 0x00FFFFFF)] ].


(** Primitives that neither take, release nor reset the mutex and that
    can always be performed. *)
Definition plain {X : Type} (a : action X) : bool :=
  match a with
  | Pthread_mutex_lock | Pthread_mutex_unlock | Pthread_mutex_init => false
  | Free_device _ => false
  | _ => true
  end.

(** Locking discipline of a program.  [disciplined false p]: [p], started
    without the mutex, does nothing but lock before its first primitive,
    and ends without the mutex.  [disciplined true p]: [p], started with
    the mutex held, only performs plain primitives until it unlocks. *)
Inductive disciplined {A : Type} : bool -> prog A -> Prop :=
| d_ret (a : A) : disciplined false (Ret a)
| d_lock (k : unit -> prog A) :
    disciplined true (k tt) -> disciplined false (Vis Pthread_mutex_lock k)
| d_unlock (k : unit -> prog A) :
    disciplined false (k tt) -> disciplined true (Vis Pthread_mutex_unlock k)
| d_plain (X : Type) (e : action X) (k : X -> prog A) :
    plain e = true -> (forall x, disciplined true (k x)) ->
    disciplined true (Vis e k).

(** A program made of plain primitives only. *)
Inductive lock_free {A : Type} : prog A -> Prop :=
| lf_ret (a : A) : lock_free (Ret a)
| lf_vis (X : Type) (e : action X) (k : X -> prog A) :
    plain e = true -> (forall x, lock_free (k x)) -> lock_free (Vis e k).

(** Whether thread [t] holds the mutex. *)
Definition holds (t : tid) (w : world) : bool :=
  match g_lock w with
  | Some o => Nat.eqb o t
  | None => false
  end.

(** Every thread of the pool follows the discipline from where it is. *)
Definition well_locked (c : config) : Prop :=
  forall (t : tid) (p : prog unit),
    nth_error (fst c) t = Some p -> disciplined (holds t (snd c)) p.

End Threads.

(** ** Vocabulary of the specifications *)

Module Post.
Import Int32 Machine Lights.

(** What a [write_int] call leaves alone: the module's shared variables,
    the mutex, the once-flag, the heap and the kernel's future answers. *)
Record frame (w w' : world) : Prop := mk_frame {
  fr_init         : g_init w' = g_init w;
  fr_lock         : g_lock w' = g_lock w;
  fr_notification : g_notification w' = g_notification w;
  fr_backlight    : g_backlight w' = g_backlight w;
  fr_buttons      : g_buttons w' = g_buttons w;
  fr_heap         : heap w' = heap w;
  fr_kernel       : kernel w' = kernel w
}.

(** Number of warnings a [write_int] call started in [w] emits, and the
    value of [already_warned] after it. *)
Definition new_warnings (w : world) : nat :=
  if next_ok w then O else if already_warned w =? 0 then 1%nat else O.

Definition warned_after (w : world) : Z :=
  if next_ok w then already_warned w
  else if already_warned w =? 0 then 1 else already_warned w.

(** The events [evs] a [write_int path value] call started in [w] adds. *)
Definition write_int_events (path : string) (value : Z) (w : world)
           (evs : list event) : Prop :=
  opens_of evs = [path]
  /\ writes_of evs =
       (if next_ok w then [(Some path, sprintf_d_nl value)] else [])
  /\ open_warnings evs = new_warnings w.

Record write_int_post (path : string) (value : Z)
       (w : world) (r : Z) (w' : world) : Prop := mk_write_int_post {
  wi_frame    : frame w w';
  wi_trace    : exists evs, trace w' = trace w ++ evs
                            /\ write_int_events path value w evs;
  wi_warned   : already_warned w' = warned_after w;
  wi_nonpos   : r <= 0;
  wi_zero     : r = 0 <-> next_ok w = true /\ second_ok w = true;
  wi_open_err : forall e, kernel w (syscalls w) = SysErr e -> r = - Z.pos e
}.

(** The log never holds more warnings than [already_warned] accounts for. *)
Definition warn_inv (w : world) : Prop :=
  (open_warnings (trace w) <= (if (already_warned w =? 0)%Z then 0 else 1))%nat.

(** World in which the [write_int] call of [set_light_backlight] starts. *)
Definition backlight_entry (t : tid) (s : light_state_t) (w : world) : world :=
  set_g_backlight (rgb_to_brightness s) (set_g_lock (Some t) w).

(** World in which the [write_int] call of [set_light_buttons] starts, and
    the code the call is given. *)
Definition buttons_entry (t : tid) (s : light_state_t) (w : world) : world :=
  set_g_buttons (is_lit s) (set_g_lock (Some t) w).

Definition buttons_code (s : light_state_t) : Z :=
  if truthy (is_lit s) then BLN_LIGHT_ON else BLN_LIGHT_OFF.

End Post.

(** ** Further observations *)

Module Observe.
Import Int32 Machine Lights Threads Post.

(** Values of type [int]. *)
Definition is_int (z : Z) : Prop := - 2 ^ 31 <= z < 2 ^ 31.

Definition is_byte (z : Z) : Prop := 0 <= z <= 255.

(** The colour [0xAARRGGBB] with the given channels. *)
Definition pack_argb (a r g b : Z) : Z := a * 2 ^ 24 + r * 65536 + g * 256 + b.

(** [char buffer[20];] of [write_int]. *)
Definition buffer_size : nat := 20.

(** The [write_int] calls a trace records (each call logs its arguments). *)
Fixpoint requests_of (tr : list event) : list (string * Z) :=
  match tr with
  | [] => []
  | EvLog VERBOSE (Msg_write_int path value) :: tr' => (path, value) :: requests_of tr'
  | _ :: tr' => requests_of tr'
  end.

(** Descriptors handed out by [open], and descriptors given to [close]. *)
Fixpoint opened_fds (tr : list event) : list Z :=
  match tr with
  | [] => []
  | EvOpen _ r :: tr' => if 0 <=? r then r :: opened_fds tr' else opened_fds tr'
  | _ :: tr' => opened_fds tr'
  end.

Fixpoint closed_fds (tr : list event) : list Z :=
  match tr with
  | [] => []
  | EvClose fd _ :: tr' => fd :: closed_fds tr'
  | _ :: tr' => closed_fds tr'
  end.

(** Number of [open] calls that failed. *)
Fixpoint failed_opens (tr : list event) : nat :=
  match tr with
  | [] => O
  | EvOpen _ r :: tr' => if 0 <=? r then failed_opens tr' else S (failed_opens tr')
  | _ :: tr' => failed_opens tr'
  end.

(** What a [write_int path value] call started in [w] and ended in [w']
    added to the trace. *)
Record write_int_obs (path : string) (value : Z) (w w' : world)
       (evs : list event) : Prop := mk_write_int_obs {
  wo_requests : requests_of evs = [(path, value)];
  wo_balance  : opened_fds evs = closed_fds evs;
  wo_failed   : failed_opens evs = if next_ok w then O else 1%nat;
  wo_syscalls : syscalls w' = if next_ok w then (3 + syscalls w)%nat
                              else (1 + syscalls w)%nat
}.

(** The log holds a warning exactly when some [open] has failed, and
    [already_warned] is set exactly then. *)
Definition warn_exact (w : world) : Prop :=
  open_warnings (trace w) = Nat.min 1 (failed_opens (trace w))
  /\ (already_warned w = 0 <-> failed_opens (trace w) = O).

(** What a stretch of a handler guarantees, from the world [w] in which
    the handler was called to the world [w'] reached: who holds the mutex,
    which [write_int] calls were made, and what is kept. *)
Record section_post (owner : option tid) (reqs : list (string * Z))
       (w w' : world) : Prop := mk_section_post {
  sp_lock   : g_lock w' = owner;
  sp_init   : g_init w' = g_init w;
  sp_heap   : heap w' = heap w;
  sp_kernel : kernel w' = kernel w;
  sp_trace  : exists evs, trace w' = trace w ++ evs
                          /\ opened_fds evs = closed_fds evs
                          /\ requests_of evs = reqs;
  sp_warn   : warn_exact w -> warn_exact w'
}.

(** A whole handler call ends with the mutex free. *)
Definition handler_post (reqs : list (string * Z)) (w w' : world) : Prop :=
  section_post None reqs w w'.

(** The [write_int] calls of a handler for a state. *)
Definition handler_requests (h : handler) (s : light_state_t) : list (string * Z) :=
  match h with
  | Set_light_backlight => [(LCD_FILE, rgb_to_brightness s)]
  | Set_light_buttons => [(BUTTON_FILE, buttons_code s)]
  | Set_light_notifications =>
      (NOTIFICATION_FILE,
       if truthy (is_lit s) then BLN_NOTIFY_ON else BLN_NOTIFY_OFF)
      :: (if Codec.sum_is_zero (rgb_to_brightness s) s || (100 <? rgb_to_brightness s)
          then [(CM7_NOTIFICATION_FILE,
                 if truthy (Z.land (color s) 0x00ffffff)
                 then CM7_ENABLE_BL else CM7_DISABLE_BL)]
          else [])
  end.

(** The [write_int] calls of a thread's calls, in order. *)
Fixpoint thread_requests (calls : list call) : list (string * Z) :=
  match calls with
  | [] => []
  | (h, _, s) :: rest => handler_requests h s ++ thread_requests rest
  end.

(** The handle stored at an address of the heap. *)
Fixpoint lookup_handle (p : Z) (h : list (Z * light_device_t)) : option light_device_t :=
  match h with
  | [] => None
  | (p', d) :: h' => if p' =? p then Some d else lookup_handle p h'
  end.

(** A process in which one handle, at address 1, is live. *)
Definition one_handle_world : world :=
  set_heap [(1, mk_light_device 0 0 0 true (Some Set_light_buttons))]
           (initial_world willing_kernel).

(** The names [open_lights] knows, each with its callback. *)
Definition device_table (backlight buttons notifications : string)
  : list (string * handler) :=
  [ (backlight, Set_light_backlight);
    (buttons, Set_light_buttons);
    (notifications, Set_light_notifications) ].

(** The [write_int] calls of [set_light_notifications] for a state. *)
Definition notification_requests (s : light_state_t) : list (string * Z) :=
  (NOTIFICATION_FILE, if color s =? 0 then BLN_NOTIFY_OFF else BLN_NOTIFY_ON)
  :: (if color s =? 0 then [(CM7_NOTIFICATION_FILE, CM7_DISABLE_BL)]
      else if 100 <? rgb_to_brightness s then [(CM7_NOTIFICATION_FILE, CM7_ENABLE_BL)]
      else []).

(** A thread that has made all its calls. *)
Definition is_ret {A : Type} (p : prog A) : bool :=
  match p with
  | Ret _ => true
  | Vis _ _ => false
  end.

Definition all_finished (c : config) : bool := forallb is_ret (fst c).

(** The thread holding the mutex, if any, is one of the pool. *)
Definition owner_in_pool (c : config) : Prop :=
  forall o, g_lock (snd c) = Some o -> (o < List.length (fst c))%nat.

End Observe.

(** * Properties *)

(** ** Machine integers and the codec *)

Module CodecFacts.
Import Int32 Codec.

Lemma land_mask8 z : Z.land z 0x00ff = z mod 256.
Proof. change 0x00ff with (Z.ones 8). now rewrite Z.land_ones by lia. Qed.

Lemma land_mask24 z : Z.land z 0x00ffffff = z mod 2 ^ 24.
Proof. change 0x00ffffff with (Z.ones 24). now rewrite Z.land_ones by lia. Qed.

Lemma land_mask32 z : Z.land z 0xffffffff = z mod 2 ^ 32.
Proof. change 0xffffffff with (Z.ones 32). now rewrite Z.land_ones by lia. Qed.

Lemma to_int_small z : 0 <= z < 2 ^ 31 -> to_int z = z.
Proof.
  intros H. unfold to_int, modulus.
  rewrite Z.mod_small by lia.
  destruct (z <? 2 ^ 31) eqn:E; [reflexivity|].
  apply Z.ltb_ge in E. lia.
Qed.

Lemma to_int_zero_iff z : is_uint z -> (to_int z = 0 <-> z = 0).
Proof.
  unfold is_uint, to_int, modulus. intros H.
  rewrite (Z.mod_small z) by exact H.
  destruct (z <? 2 ^ 31) eqn:E.
  - tauto.
  - apply Z.ltb_ge in E. lia.
Qed.

Lemma to_uint_id_aux z : is_uint z -> to_uint z = z.
Proof. unfold is_uint, to_uint. intros H. now apply Z.mod_small. Qed.

Lemma truthy_true_iff z : truthy z = true <-> z <> 0.
Proof.
  unfold truthy. rewrite negb_true_iff, Z.eqb_neq. tauto.
Qed.

(** The masked colour the brightness is computed from. *)
Lemma masked_color c : to_int (Z.land c 0x00ffffff) = c mod 2 ^ 24.
Proof.
  rewrite land_mask24. apply to_int_small.
  pose proof (Z.mod_pos_bound c (2 ^ 24)). lia.
Qed.

(** [rgb_to_brightness] in terms of division and remainder. *)
Lemma rgb_to_brightness_arith s :
  rgb_to_brightness s =
    (77 * red (color s mod 2 ^ 24) + 150 * green (color s mod 2 ^ 24)
     + 29 * blue (color s mod 2 ^ 24)) / 256.
Proof.
  unfold rgb_to_brightness, red, green, blue.
  rewrite masked_color, !land_mask8, !Z.shiftr_div_pow2 by lia.
  reflexivity.
Qed.

Lemma byte_range z : 0 <= z mod 256 <= 255.
Proof. pose proof (Z.mod_pos_bound z 256). lia. Qed.

Lemma rgb_to_brightness_range s : 0 <= rgb_to_brightness s <= 255.
Proof.
  rewrite rgb_to_brightness_arith. unfold red, green, blue.
  pose proof (byte_range (color s mod 2 ^ 24 / 65536)).
  pose proof (byte_range (color s mod 2 ^ 24 / 256)).
  pose proof (byte_range (color s mod 2 ^ 24)).
  split.
  - apply Z.div_pos; lia.
  - apply Z.lt_succ_r, Z.div_lt_upper_bound; lia.
Qed.

(** A colour in the last 255 values of the 32-bit range has red and green
    bytes [0xff]. *)
Lemma top_colors c b :
  1 <= b <= 255 -> c = 2 ^ 32 - 256 + b ->
  red (c mod 2 ^ 24) = 255 /\ green (c mod 2 ^ 24) = 255 /\ blue (c mod 2 ^ 24) = b.
Proof.
  intros Hb ->.
  assert (E : (2 ^ 32 - 256 + b) mod 2 ^ 24 = 65535 * 256 + b).
  { symmetry. apply (Z.mod_unique_pos _ _ 255). lia. lia. }
  rewrite E. unfold red, green, blue.
  assert (E1 : (65535 * 256 + b) / 256 = 65535).
  { symmetry. apply (Z.div_unique_pos _ _ _ b); lia. }
  assert (E2 : (65535 * 256 + b) / 65536 = 255).
  { symmetry. apply (Z.div_unique_pos _ _ _ (255 * 256 + b)); lia. }
  rewrite E1, E2. repeat split.
  symmetry. apply (Z.mod_unique_pos _ _ 65535); lia.
Qed.

(** The two solutions of [brightness + color == 0] in 32-bit arithmetic. *)
Lemma sum_is_zero_solutions s :
  wf_light_state s ->
  sum_is_zero (rgb_to_brightness s) s = true ->
  color s = 0 \/ color s = 0xFFFFFF1B.
Proof.
  unfold wf_light_state, is_uint, sum_is_zero, to_uint, modulus.
  intros Hc Hz. apply Z.eqb_eq in Hz.
  pose proof (rgb_to_brightness_range s) as Hb.
  apply Z.mod_divide in Hz; [|lia]. destruct Hz as [q Hq].
  assert (q = 0 \/ q = 1) as [-> | ->] by nia.
  - left. lia.
  - right.
    set (b := 256 - rgb_to_brightness s).
    assert (Hc' : color s = 2 ^ 32 - 256 + b) by (unfold b; lia).
    assert (Hb' : 1 <= b <= 255).
    { unfold b. split; [lia|].
      assert (rgb_to_brightness s <> 0); [|lia].
      intros E. rewrite E in Hq. lia. }
    destruct (top_colors (color s) b Hb' Hc') as (Er & Eg & Eb).
    pose proof (rgb_to_brightness_arith s) as Ea.
    rewrite Er, Eg, Eb in Ea.
    assert (57885 + 29 * b = 256 * rgb_to_brightness s + (57885 + 29 * b) mod 256).
    { rewrite Ea at 1. apply Z.div_mod. lia. }
    pose proof (Z.mod_pos_bound (57885 + 29 * b) 256).
    unfold b in *. lia.
Qed.

End CodecFacts.

Section Codec_claims.
Import Int32 Codec CodecFacts.

(** Claim C1, as stated, fails: the colour [0xFFFFFF1B] is not zero, its
    brightness is 229, and [229 + 0xFFFFFF1B] wraps around to 0 in 32-bit
    arithmetic, so the first trigger condition holds for it. *)
Lemma C1_sum_zero_at_nonzero_color :
  ~ (forall s : light_state_t,
        wf_light_state s -> color s <> 0 ->
        sum_is_zero (rgb_to_brightness s) s = false).
Proof.
  intros H.
  specialize (H (state_of_color 0xFFFFFF1B)).
  assert (W : wf_light_state (state_of_color 0xFFFFFF1B))
    by (unfold wf_light_state, is_uint, modulus; simpl; lia).
  specialize (H W). simpl in H.
  assert (D : 0xFFFFFF1B <> 0) by discriminate.
  specialize (H D). vm_compute in H. discriminate.
Qed.

(** Claim C1, amended: for a 32-bit colour, [brightness + color == 0]
    (brightness being [rgb_to_brightness] of the state, the sum taken in
    32-bit arithmetic) holds exactly when the colour is zero or is
    [0xFFFFFF1B]; for every other non-zero colour the sum is not zero. *)
Theorem C1_sum_zero_iff (s : light_state_t) :
  wf_light_state s ->
  (sum_is_zero (rgb_to_brightness s) s = true
   <-> color s = 0 \/ color s = 0xFFFFFF1B).
Proof.
  intros W. split.
  - now apply sum_is_zero_solutions.
  - unfold sum_is_zero. rewrite rgb_to_brightness_arith.
    intros [E | E]; rewrite E; reflexivity.
Qed.

Lemma C1_sum_zero_iff_witness :
  wf_light_state (state_of_color 0x00FF0000) /\
  (sum_is_zero (rgb_to_brightness (state_of_color 0x00FF0000))
               (state_of_color 0x00FF0000) = true
   <-> color (state_of_color 0x00FF0000) = 0
       \/ color (state_of_color 0x00FF0000) = 0xFFFFFF1B).
Proof.
  assert (W : wf_light_state (state_of_color 0x00FF0000))
    by (unfold wf_light_state, is_uint, modulus; simpl; lia).
  split; [exact W | exact (C1_sum_zero_iff _ W)].
Defined.

(** Claim C2: for a state whose colour is a 32-bit value, [is_lit] is true
    (non-zero) exactly when the whole colour, top byte included, is not
    zero. *)
Theorem C2_is_lit_iff_color_nonzero (s : light_state_t) :
  wf_light_state s ->
  (truthy (is_lit s) = true <-> color s <> 0).
Proof.
  unfold wf_light_state. intros W.
  rewrite truthy_true_iff. unfold is_lit.
  rewrite land_mask32.
  change (2 ^ 32) with modulus. fold (to_uint (color s)).
  rewrite to_uint_id_aux by exact W.
  now rewrite (to_int_zero_iff _ W).
Qed.

Lemma C2_is_lit_iff_color_nonzero_witness :
  wf_light_state (state_of_color 0xFF000000) /\
  (truthy (is_lit (state_of_color 0xFF000000)) = true
   <-> color (state_of_color 0xFF000000) <> 0).
Proof.
  assert (W : wf_light_state (state_of_color 0xFF000000))
    by (unfold wf_light_state, is_uint, modulus; simpl; lia).
  split; [exact W | exact (C2_is_lit_iff_color_nonzero _ W)].
Defined.

(** Claim C3: [rgb_to_brightness] is [(77*R + 150*G + 29*B) >> 8] with
    [R], [G], [B] the bytes 2, 1, 0 of the low 24 bits of the colour; it
    lies in [0, 255]; and whatever is added above bit 23 (the top byte)
    leaves it unchanged. *)
Theorem C3_rgb_to_brightness_formula (s : light_state_t) :
  rgb_to_brightness s =
    Z.shiftr (77 * red (color s mod 2 ^ 24) + 150 * green (color s mod 2 ^ 24)
              + 29 * blue (color s mod 2 ^ 24)) 8
  /\ 0 <= rgb_to_brightness s <= 255
  /\ forall top : Z,
       rgb_to_brightness (state_of_color (color s + top * 2 ^ 24))
       = rgb_to_brightness s.
Proof.
  split; [|split].
  - rewrite rgb_to_brightness_arith, Z.shiftr_div_pow2 by lia. reflexivity.
  - apply rgb_to_brightness_range.
  - intros top. rewrite !rgb_to_brightness_arith. simpl color.
    now rewrite Z.mod_add by lia.
Qed.

End Codec_claims.

(** ** The machine and [write_int] *)

Module MachineFacts.
Import Int32 Machine Lights Post.

Lemma run_bind {A B : Type} (t : tid) (p : prog A) (f : A -> prog B) (w : world) :
  run t (bind p f) w =
    match run t p w with
    | Some (a, w') => run t (f a) w'
    | None => None
    end.
Proof.
  revert w. induction p as [a | X e k IH]; intros w; simpl.
  - reflexivity.
  - destruct (do_action t e w) as [[x w']|]; [apply IH | reflexivity].
Qed.

Lemma frame_refl w : frame w w.
Proof. now constructor. Qed.

Lemma frame_trans w1 w2 w3 : frame w1 w2 -> frame w2 w3 -> frame w1 w3.
Proof.
  intros [] []. constructor; etransitivity; eassumption.
Qed.

Lemma opens_of_app a b : opens_of (a ++ b) = opens_of a ++ opens_of b.
Proof.
  induction a as [|[] a IH]; simpl; rewrite ?IH; reflexivity.
Qed.

Lemma writes_of_app a b : writes_of (a ++ b) = writes_of a ++ writes_of b.
Proof.
  induction a as [|[] a IH]; simpl; rewrite ?IH; reflexivity.
Qed.

Lemma open_warnings_app a b :
  open_warnings (a ++ b) = (open_warnings a + open_warnings b)%nat.
Proof.
  unfold open_warnings. now rewrite filter_app, length_app.
Qed.

Lemma of_N_nonneg v : (0 <=? Z.of_N v) = true.
Proof. apply Z.leb_le. lia. Qed.

Lemma of_N_not_m1 v : (Z.of_N v =? -1) = false.
Proof. apply Z.eqb_neq. lia. Qed.

Ltac exec :=
  cbn [bind run do_action kernel syscalls fdtab trace errno already_warned
       g_init g_lock g_notification g_backlight g_buttons heap
       emit tick set_errno set_fdtab set_already_warned set_g_lock
       set_g_backlight set_g_buttons set_g_notification set_g_init set_heap
       lookup_fd fst snd];
  rewrite ?of_N_nonneg, ?of_N_not_m1, ?Z.eqb_refl, ?Nat.eqb_refl.

Ltac trace_events :=
  eexists; split;
  [ cbn [trace emit tick set_errno set_fdtab set_already_warned];
    rewrite <- ?app_assoc; reflexivity
  | repeat split; reflexivity ].

(** [write_int] always returns, and does what [write_int_post] says.
    The proof follows the kernel's answers to [open], [write] and [close]
    and the value of [already_warned]. *)
Lemma run_write_int (t : tid) (path : string) (value : Z) (w : world) :
  exists r w',
    run t (write_int path value) w = Some (r, w')
    /\ write_int_post path value w r w'.
Proof.
  destruct (kernel w (syscalls w)) as [fd | e1] eqn:K1;
  destruct (kernel w (S (syscalls w))) as [amt | e2] eqn:K2;
  destruct (kernel w (S (S (syscalls w)))) as [c | e3] eqn:K3;
  destruct (already_warned w =? 0) eqn:W;
  unfold write_int, LOGV, LOGE, perform;
  repeat (exec; unfold syscall; exec; rewrite ?K1, ?K2, ?K3, ?W);
  change (0 <=? -1) with false; exec; rewrite ?W; exec;
  (do 2 eexists; split; [reflexivity|]);
  (constructor;
   [ now constructor
   | unfold write_int_events, new_warnings, next_ok; rewrite K1, ?W; trace_events
   | unfold warned_after, next_ok; rewrite K1, ?W; reflexivity
   | lia
   | unfold next_ok, second_ok; rewrite K1, K2;
     split; [ intros E; try lia; now split
            | intros [E1 E2]; try discriminate; reflexivity ]
   | intros e0 E; rewrite K1 in E; try discriminate;
     injection E as <-; reflexivity ]).
Qed.

(** *** The handlers, in terms of their [write_int] calls *)

Lemma sum_is_zero_or_bright s :
  let c := Codec.sum_is_zero (rgb_to_brightness s) s
           || (100 <? rgb_to_brightness s) in
  c = true \/ c = false.
Proof. intros c. destruct c; auto. Qed.

Lemma unlock_after (t : tid) (w0 w1 : world) {A : Type} (a : A) :
  g_lock w0 = Some t -> frame w0 w1 ->
  run t (bind pthread_mutex_unlock (fun _ => Ret a)) w1
  = Some (a, set_g_lock None w1).
Proof.
  intros L F. unfold pthread_mutex_unlock, perform. exec.
  rewrite (fr_lock _ _ F), L. now rewrite Nat.eqb_refl.
Qed.

Lemma run_set_light_backlight (t : tid) (dev : Z) (s : light_state_t) (w : world) :
  g_lock w = None ->
  exists r w1,
    run t (write_int LCD_FILE (rgb_to_brightness s)) (backlight_entry t s w)
    = Some (r, w1)
    /\ write_int_post LCD_FILE (rgb_to_brightness s) (backlight_entry t s w) r w1
    /\ run t (set_light_backlight dev s) w = Some (r, set_g_lock None w1).
Proof.
  intros L.
  destruct (run_write_int t LCD_FILE (rgb_to_brightness s) (backlight_entry t s w))
    as (r & w1 & E & P).
  exists r, w1. split; [exact E | split; [exact P|]].
  unfold set_light_backlight, pthread_mutex_lock, perform. exec. rewrite L.
  fold (backlight_entry t s w).
  rewrite run_bind, E.
  apply (unlock_after t (backlight_entry t s w)); [reflexivity | apply P].
Qed.

Lemma run_set_light_buttons (t : tid) (dev : Z) (s : light_state_t) (w : world) :
  g_lock w = None ->
  exists r w1,
    run t (write_int BUTTON_FILE (buttons_code s)) (buttons_entry t s w)
    = Some (r, w1)
    /\ write_int_post BUTTON_FILE (buttons_code s) (buttons_entry t s w) r w1
    /\ run t (set_light_buttons dev s) w = Some (r, set_g_lock None w1).
Proof.
  intros L.
  destruct (run_write_int t BUTTON_FILE (buttons_code s) (buttons_entry t s w))
    as (r & w1 & E & P).
  exists r, w1. split; [exact E | split; [exact P|]].
  unfold set_light_buttons, pthread_mutex_lock, perform. exec. rewrite L.
  fold (buttons_entry t s w). fold (buttons_code s).
  rewrite run_bind, E.
  apply (unlock_after t (buttons_entry t s w)); [reflexivity | apply P].
Qed.

(** The notification handler returns 0 whatever its writes did. *)
Lemma run_set_light_notifications (t : tid) (dev : Z) (s : light_state_t) (w : world) :
  g_lock w = None ->
  exists w', run t (set_light_notifications dev s) w = Some (0, w').
Proof.
  intros L.
  unfold set_light_notifications, pthread_mutex_lock, LOGE, LOGV, perform.
  exec. rewrite L. exec.
  set (w0 := emit _ _).
  assert (L0 : g_lock w0 = Some t) by reflexivity.
  clearbody w0.
  rewrite run_bind.
  destruct (run_write_int t NOTIFICATION_FILE
              (if truthy (is_lit s) then BLN_NOTIFY_ON else BLN_NOTIFY_OFF) w0)
    as (r1 & w1 & E1 & P1).
  rewrite E1. rewrite run_bind.
  destruct (sum_is_zero_or_bright s) as [C | C]; rewrite C.
  - destruct (truthy (Z.land (color s) 0x00ffffff)); exec.
    + set (w2 := emit _ w1).
      assert (F2 : frame w0 w2)
        by (apply frame_trans with w1; [apply P1 | now constructor]).
      clearbody w2.
      destruct (run_write_int t CM7_NOTIFICATION_FILE CM7_ENABLE_BL w2)
        as (r2 & w3 & E2 & P2).
      rewrite E2. eexists.
      apply (unlock_after t w0); [exact L0|].
      apply frame_trans with w2; [exact F2 | apply P2].
    + set (w2 := emit _ w1).
      assert (F2 : frame w0 w2)
        by (apply frame_trans with w1; [apply P1 | now constructor]).
      clearbody w2.
      destruct (run_write_int t CM7_NOTIFICATION_FILE CM7_DISABLE_BL w2)
        as (r2 & w3 & E2 & P2).
      rewrite E2. eexists.
      apply (unlock_after t w0); [exact L0|].
      apply frame_trans with w2; [exact F2 | apply P2].
  - exec. eexists. apply (unlock_after t w0); [exact L0 | apply P1].
Qed.

End MachineFacts.

(** ** The three handlers *)

Section Handler_claims.
Import Int32 Codec CodecFacts Machine Lights Post MachineFacts.

Variable t : tid.
Variable dev : Z.

(** Claim C4, as stated, fails: after [set_light_buttons] with colour
    [0xFFFFFFFF] the button variable holds [-1], the colour read as an
    [int], which is neither of the two values of a 0/1 flag. *)
Lemma C4_button_flag_is_not_boolean :
  ~ (forall (s : light_state_t) (w : world) (r : Z) (w' : world),
        wf_light_state s -> g_lock w = None ->
        run 0%nat (set_light_buttons 1 s) w = Some (r, w') ->
        g_buttons w' = if truthy (is_lit s) then 1 else 0).
Proof.
  intros H.
  assert (W : wf_light_state (state_of_color 0xFFFFFFFF))
    by (unfold wf_light_state, is_uint, modulus; simpl; lia).
  destruct (run 0%nat (set_light_buttons 1 (state_of_color 0xFFFFFFFF))
                (initial_world (fun _ => SysOk 3))) as [[r w']|] eqn:E.
  - pose proof (H _ (initial_world (fun _ => SysOk 3)) _ _ W eq_refl E) as G.
    vm_compute in E. injection E as <- <-.
    vm_compute in G. discriminate G.
  - vm_compute in E. discriminate E.
Qed.

(** Claim C4, amended: after [set_light_buttons] the button variable holds
    the value [is_lit] returned, that is the 32-bit colour read as an
    [int]: non-zero exactly when the state is lit, zero otherwise, but not
    normalised to 1.  The call hands [write_int] the button control file
    and the code 1 when lit, 2 otherwise, and that code (in decimal, with
    a newline) is what gets written when the file opens. *)
Theorem C4_buttons_flag_and_code (s : light_state_t) (w : world) :
  wf_light_state s -> g_lock w = None ->
  exists r w1 w' evs,
    run t (set_light_buttons dev s) w = Some (r, w')
    /\ g_buttons w' = to_int (color s)
    /\ (g_buttons w' <> 0 <-> color s <> 0)
    /\ run t (write_int BUTTON_FILE (if color s =? 0 then 2 else 1))
             (buttons_entry t s w) = Some (r, w1)
    /\ trace w' = trace w ++ evs
    /\ opens_of evs = [BUTTON_FILE]
    /\ writes_of evs =
         if next_ok w
         then [(Some BUTTON_FILE,
                if color s =? 0 then ("2" ++ nl)%string else ("1" ++ nl)%string)]
         else [].
Proof.
  intros W L.
  destruct (run_set_light_buttons t dev s w L) as (r & w1 & E & P & R).
  destruct (wi_trace _ _ _ _ _ P) as (evs & T & O & Wr & _).
  assert (Lit : is_lit s = to_int (color s)).
  { unfold is_lit, Codec.is_lit. rewrite land_mask32.
    change (2 ^ 32) with modulus. fold (to_uint (color s)).
    now rewrite to_uint_id_aux by exact W. }
  assert (Code : buttons_code s = if color s =? 0 then 2 else 1).
  { unfold buttons_code, truthy. rewrite Lit.
    destruct (color s =? 0) eqn:C.
    - apply Z.eqb_eq in C. rewrite C. reflexivity.
    - apply Z.eqb_neq in C.
      destruct (to_int (color s) =? 0) eqn:C'; [|reflexivity].
      apply Z.eqb_eq in C'. apply (to_int_zero_iff _ W) in C'. contradiction. }
  exists r, w1, (set_g_lock None w1), evs.
  split; [exact R|]. split.
  { exec. rewrite (fr_buttons _ _ (wi_frame _ _ _ _ _ P)). exact Lit. }
  split.
  { exec. rewrite (fr_buttons _ _ (wi_frame _ _ _ _ _ P)).
    change (g_buttons (buttons_entry t s w)) with (is_lit s). rewrite Lit.
    now rewrite (to_int_zero_iff _ W). }
  split; [now rewrite <- Code|].
  split; [exact T|]. split; [exact O|].
  rewrite Wr. change (next_ok (buttons_entry t s w)) with (next_ok w).
  rewrite Code. destruct (next_ok w); [|reflexivity].
  destruct (color s =? 0); reflexivity.
Qed.

(** Claim C5: called with the mutex free, [set_light_notifications]
    returns 0 for every state and every world, hence for every way the
    kernel answers the system calls of its one or two [write_int] calls:
    a failed write never shows in the result. *)
Theorem C5_notifications_return_zero (s : light_state_t) (w : world) :
  g_lock w = None ->
  exists w', run t (set_light_notifications dev s) w = Some (0, w').
Proof.
  apply run_set_light_notifications.
Qed.

(** Claim C6: called with the mutex free, [set_light_backlight] returns
    what its one [write_int] call on the backlight file returned: 0 when
    the kernel lets both the open and the write succeed, a negative number
    otherwise.  Whatever the result, the backlight variable holds the
    requested brightness afterwards. *)
Theorem C6_backlight_result_and_record (s : light_state_t) (w : world) :
  g_lock w = None ->
  exists r w1 w' evs,
    run t (write_int LCD_FILE (rgb_to_brightness s)) (backlight_entry t s w)
    = Some (r, w1)
    /\ run t (set_light_backlight dev s) w = Some (r, w')
    /\ (if next_ok w && second_ok w then r = 0 else r < 0)
    /\ g_backlight w' = Codec.rgb_to_brightness s
    /\ trace w' = trace w ++ evs
    /\ opens_of evs = [LCD_FILE].
Proof.
  intros L.
  destruct (run_set_light_backlight t dev s w L) as (r & w1 & E & P & R).
  destruct (wi_trace _ _ _ _ _ P) as (evs & T & O & _).
  exists r, w1, (set_g_lock None w1), evs.
  split; [exact E|]. split; [exact R|].
  split.
  { pose proof (wi_nonpos _ _ _ _ _ P) as Np.
    pose proof (wi_zero _ _ _ _ _ P) as Zr.
    change (next_ok (backlight_entry t s w)) with (next_ok w) in Zr.
    change (second_ok (backlight_entry t s w)) with (second_ok w) in Zr.
    destruct (next_ok w), (second_ok w); cbn [andb];
      [ apply Zr; split; reflexivity | | | ];
      (assert (r <> 0) by (intros Z0; apply Zr in Z0; destruct Z0; discriminate);
       clear - Np H; lia). }
  split; [|split; [exact T | exact O]].
  exec. now rewrite (fr_backlight _ _ (wi_frame _ _ _ _ _ P)).
Qed.

(** Claim C10: [set_light_backlight] opens the backlight control file and
    no other, writes only to it, and leaves the button variable and the
    stored notification state as they were; [set_light_buttons] leaves
    the backlight variable and the stored notification state as they
    were. *)
Theorem C10_backlight_and_buttons_frame (s : light_state_t) (w : world) :
  g_lock w = None ->
  (exists r w' evs,
      run t (set_light_backlight dev s) w = Some (r, w')
      /\ trace w' = trace w ++ evs
      /\ opens_of evs = [LCD_FILE]
      /\ (forall p b, In (p, b) (writes_of evs) -> p = Some LCD_FILE)
      /\ ~ In KEYBOARD_FILE (opens_of evs)
      /\ ~ In BUTTON_FILE (opens_of evs)
      /\ ~ In NOTIFICATION_FILE (opens_of evs)
      /\ ~ In CM7_NOTIFICATION_FILE (opens_of evs)
      /\ g_buttons w' = g_buttons w
      /\ g_notification w' = g_notification w)
  /\ (exists r w' evs,
        run t (set_light_buttons dev s) w = Some (r, w')
        /\ trace w' = trace w ++ evs
        /\ opens_of evs = [BUTTON_FILE]
        /\ g_backlight w' = g_backlight w
        /\ g_notification w' = g_notification w).
Proof.
  intros L. split.
  - destruct (run_set_light_backlight t dev s w L) as (r & w1 & E & P & R).
    destruct (wi_trace _ _ _ _ _ P) as (evs & T & O & Wr & _).
    exists r, (set_g_lock None w1), evs.
    split; [exact R|]. split; [exact T|]. split; [exact O|].
    split.
    { intros p b. rewrite Wr. destruct (next_ok _); simpl; [|tauto].
      intros [I | []]. now inversion I. }
    rewrite O.
    repeat split;
      try (intros [I | []]; discriminate I).
    + exec. now rewrite (fr_buttons _ _ (wi_frame _ _ _ _ _ P)).
    + exec. now rewrite (fr_notification _ _ (wi_frame _ _ _ _ _ P)).
  - destruct (run_set_light_buttons t dev s w L) as (r & w1 & E & P & R).
    destruct (wi_trace _ _ _ _ _ P) as (evs & T & O & _).
    exists r, (set_g_lock None w1), evs.
    repeat split; try assumption.
    + exec. now rewrite (fr_backlight _ _ (wi_frame _ _ _ _ _ P)).
    + exec. now rewrite (fr_notification _ _ (wi_frame _ _ _ _ _ P)).
Qed.

End Handler_claims.

Lemma C4_buttons_flag_and_code_witness :
  wf_light_state (state_of_color 0xFFFFFFFF)
  /\ Machine.g_lock (Machine.initial_world Machine.willing_kernel) = None
  /\ exists r w1 w' evs,
      Machine.run 0%nat (Lights.set_light_buttons 1 (state_of_color 0xFFFFFFFF))
                  (Machine.initial_world Machine.willing_kernel) = Some (r, w')
      /\ Machine.g_buttons w' = Int32.to_int (color (state_of_color 0xFFFFFFFF))
      /\ (Machine.g_buttons w' <> 0 <-> color (state_of_color 0xFFFFFFFF) <> 0)
      /\ Machine.run 0%nat
           (Lights.write_int Lights.BUTTON_FILE
              (if color (state_of_color 0xFFFFFFFF) =? 0 then 2 else 1))
           (Post.buttons_entry 0%nat (state_of_color 0xFFFFFFFF)
              (Machine.initial_world Machine.willing_kernel)) = Some (r, w1)
      /\ Machine.trace w' = Machine.trace (Machine.initial_world Machine.willing_kernel) ++ evs
      /\ Machine.opens_of evs = [Lights.BUTTON_FILE]
      /\ Machine.writes_of evs =
           if Machine.next_ok (Machine.initial_world Machine.willing_kernel)
           then [(Some Lights.BUTTON_FILE,
                  if color (state_of_color 0xFFFFFFFF) =? 0
                  then ("2" ++ Lights.nl)%string else ("1" ++ Lights.nl)%string)]
           else [].
Proof.
  assert (W : wf_light_state (state_of_color 0xFFFFFFFF))
    by (unfold wf_light_state, Int32.is_uint, Int32.modulus; simpl; lia).
  split; [exact W|]. split; [reflexivity|].
  exact (C4_buttons_flag_and_code 0%nat 1 _ (Machine.initial_world Machine.willing_kernel)
           W eq_refl).
Defined.

Lemma C5_notifications_return_zero_witness :
  Machine.g_lock (Machine.initial_world Machine.refusing_kernel) = None
  /\ exists w',
      Machine.run 0%nat (Lights.set_light_notifications 1 (state_of_color 0x00FFFFFF))
                  (Machine.initial_world Machine.refusing_kernel) = Some (0, w').
Proof.
  split; [reflexivity|].
  exact (C5_notifications_return_zero 0%nat 1 _ (Machine.initial_world Machine.refusing_kernel)
           eq_refl).
Defined.

Lemma C6_backlight_result_and_record_witness :
  Machine.g_lock (Machine.initial_world Machine.refusing_kernel) = None
  /\ exists r w1 w' evs,
      Machine.run 0%nat
        (Lights.write_int Lights.LCD_FILE
           (Lights.rgb_to_brightness (state_of_color 0x00FFFFFF)))
        (Post.backlight_entry 0%nat (state_of_color 0x00FFFFFF)
           (Machine.initial_world Machine.refusing_kernel)) = Some (r, w1)
      /\ Machine.run 0%nat (Lights.set_light_backlight 1 (state_of_color 0x00FFFFFF))
                     (Machine.initial_world Machine.refusing_kernel) = Some (r, w')
      /\ (if Machine.next_ok (Machine.initial_world Machine.refusing_kernel)
              && Machine.second_ok (Machine.initial_world Machine.refusing_kernel)
           then r = 0 else r < 0)
      /\ Machine.g_backlight w' = Codec.rgb_to_brightness (state_of_color 0x00FFFFFF)
      /\ Machine.trace w' = Machine.trace (Machine.initial_world Machine.refusing_kernel) ++ evs
      /\ Machine.opens_of evs = [Lights.LCD_FILE].
Proof.
  split; [reflexivity|].
  exact (C6_backlight_result_and_record 0%nat 1 _ (Machine.initial_world Machine.refusing_kernel)
           eq_refl).
Defined.

Lemma C10_backlight_and_buttons_frame_witness :
  Machine.g_lock (Machine.initial_world Machine.willing_kernel) = None
  /\ exists r w' evs,
      Machine.run 0%nat (Lights.set_light_backlight 1 (state_of_color 0x00FFFFFF))
                  (Machine.initial_world Machine.willing_kernel) = Some (r, w')
      /\ Machine.trace w' = Machine.trace (Machine.initial_world Machine.willing_kernel) ++ evs
      /\ Machine.opens_of evs = [Lights.LCD_FILE].
Proof.
  split; [reflexivity|].
  destruct (C10_backlight_and_buttons_frame 0%nat 1 (state_of_color 0x00FFFFFF)
              (Machine.initial_world Machine.willing_kernel) eq_refl)
    as [(r & w' & evs & R & T & O & _) _].
  exists r, w', evs. repeat split; assumption.
Defined.

(** ** Opening a device *)

Section Open_claims.
Import Machine Lights Post MachineFacts.

Variables LIGHT_ID_BACKLIGHT LIGHT_ID_BUTTONS LIGHT_ID_NOTIFICATIONS : string.
Variables HARDWARE_DEVICE_TAG EINVAL : Z.

Lemma select_handler_unknown (name : string) :
  name <> LIGHT_ID_BACKLIGHT ->
  name <> LIGHT_ID_BUTTONS ->
  name <> LIGHT_ID_NOTIFICATIONS ->
  select_handler LIGHT_ID_BACKLIGHT LIGHT_ID_BUTTONS LIGHT_ID_NOTIFICATIONS name
  = None.
Proof.
  intros N1 N2 N3. unfold select_handler.
  destruct (String.eqb_spec LIGHT_ID_BACKLIGHT name) as [E | _]; [congruence|].
  destruct (String.eqb_spec LIGHT_ID_BUTTONS name) as [E | _]; [congruence|].
  destruct (String.eqb_spec LIGHT_ID_NOTIFICATIONS name) as [E | _]; [congruence|].
  reflexivity.
Qed.

(** Claim C7: for a name that is none of the three light identifiers,
    [open_lights] returns [-EINVAL] (negative, [EINVAL] being a positive
    error number), stores nothing through [device], and leaves the heap of
    handles, the once-flag, the mutex and the shared variables as they
    were: its only effect is the log line with the name. *)
Theorem C7_open_unknown_name
        (t : tid) (module : Z) (name : string) (w : world) :
  0 < EINVAL ->
  name <> LIGHT_ID_BACKLIGHT ->
  name <> LIGHT_ID_BUTTONS ->
  name <> LIGHT_ID_NOTIFICATIONS ->
  exists w',
    run t (open_lights LIGHT_ID_BACKLIGHT LIGHT_ID_BUTTONS LIGHT_ID_NOTIFICATIONS
                       HARDWARE_DEVICE_TAG EINVAL module name) w
    = Some ((- EINVAL, None), w')
    /\ - EINVAL < 0
    /\ w' = emit (EvLog ERROR (Msg_cmd_name name)) w
    /\ heap w' = heap w
    /\ frame w w'.
Proof.
  intros P N1 N2 N3.
  exists (emit (EvLog ERROR (Msg_cmd_name name)) w).
  unfold open_lights, LOGE, perform.
  rewrite (select_handler_unknown name N1 N2 N3).
  repeat split. lia.
Qed.

End Open_claims.

Lemma C7_open_unknown_name_witness :
  0 < 22
  /\ "keyboard"%string <> "backlight"%string
  /\ "keyboard"%string <> "buttons"%string
  /\ "keyboard"%string <> "notifications"%string
  /\ exists w',
      Machine.run 0%nat
        (Lights.open_lights "backlight" "buttons" "notifications" 0x48574454 22
           7 "keyboard")
        (Machine.initial_world Machine.willing_kernel)
      = Some ((- 22, None), w')
      /\ Machine.heap w' = [].
Proof.
  assert (P : 0 < 22) by reflexivity.
  assert (N1 : "keyboard"%string <> "backlight"%string) by discriminate.
  assert (N2 : "keyboard"%string <> "buttons"%string) by discriminate.
  assert (N3 : "keyboard"%string <> "notifications"%string) by discriminate.
  repeat (split; [assumption|]).
  destruct (C7_open_unknown_name "backlight" "buttons" "notifications" 0x48574454 22
              0%nat 7 "keyboard" (Machine.initial_world Machine.willing_kernel)
              P N1 N2 N3) as (w' & R & _ & _ & H & _).
  exists w'. split; [exact R | exact H].
Defined.

(** ** The one-shot warning of [write_int] *)

Module WarningFacts.
Import Machine Lights Post MachineFacts.

Lemma warn_inv_initial k : warn_inv (initial_world k).
Proof. unfold warn_inv, open_warnings. simpl. apply Nat.le_refl. Qed.

(** A [write_int] call keeps the warning count within what
    [already_warned] accounts for. *)
Lemma write_int_keeps_warn_inv path value w r w' :
  write_int_post path value w r w' -> warn_inv w -> warn_inv w'.
Proof.
  intros P I. unfold warn_inv in *.
  destruct (wi_trace _ _ _ _ _ P) as (evs & T & _ & _ & N).
  rewrite T, open_warnings_app, N, (wi_warned _ _ _ _ _ P).
  unfold new_warnings, warned_after. revert I.
  destruct (next_ok w).
  - destruct (already_warned w =? 0); lia.
  - destruct (already_warned w =? 0) eqn:A.
    + change (1 =? 0) with false. cbv iota. lia.
    + rewrite A. lia.
Qed.

Lemma write_int_calls_keep_warn_inv calls w :
  warn_inv w ->
  exists rs w',
    run_write_int_calls calls w = Some (rs, w')
    /\ warn_inv w'
    /\ List.length rs = List.length calls.
Proof.
  revert w. induction calls as [| [[t path] value] calls IH]; intros w I.
  - exists [], w. now repeat split.
  - destruct (run_write_int t path value w) as (r & w1 & E & P).
    destruct (IH w1 (write_int_keeps_warn_inv _ _ _ _ _ P I))
      as (rs & w' & E' & I' & Len).
    exists (r :: rs), w'.
    cbn [run_write_int_calls]. rewrite E, E'.
    repeat split; [exact I' | simpl; now rewrite Len].
Qed.

Lemma warn_inv_at_most_one w : warn_inv w -> (open_warnings (trace w) <= 1)%nat.
Proof.
  unfold warn_inv. destruct (already_warned w =? 0); lia.
Qed.

End WarningFacts.

Section Warning_claims.
Import Machine Lights Post MachineFacts WarningFacts.

(** Claim C8: started in a fresh process, any sequence of [write_int]
    calls, each made by any thread, on any path and under any answers of
    the kernel, runs to the end and leaves at most one open-failure warning
    in the log: the flag is one variable for all callers.  And a
    [write_int] call whose open fails with error number [e] returns [-e],
    a negative number, whether or not a warning has been given before. *)
Theorem C8_open_warning_at_most_once :
  (forall (k : nat -> sys_ret) (calls : list (tid * string * Z)),
      exists rs w',
        run_write_int_calls calls (initial_world k) = Some (rs, w')
        /\ List.length rs = List.length calls
        /\ (open_warnings (trace w') <= 1)%nat)
  /\ (forall (t : tid) (path : string) (value : Z) (w : world) (e : positive),
        kernel w (syscalls w) = SysErr e ->
        exists w',
          run t (write_int path value) w = Some (- Z.pos e, w')
          /\ - Z.pos e < 0).
Proof.
  split.
  - intros k calls.
    destruct (write_int_calls_keep_warn_inv calls _ (warn_inv_initial k))
      as (rs & w' & E & I & Len).
    exists rs, w'. repeat split; [exact E | exact Len |].
    now apply warn_inv_at_most_one.
  - intros t path value w e K.
    destruct (run_write_int t path value w) as (r & w' & E & P).
    exists w'. rewrite E, (wi_open_err _ _ _ _ _ P e K).
    split; [reflexivity | lia].
Qed.

End Warning_claims.

Lemma C8_open_warning_at_most_once_witness :
  Machine.kernel (Machine.initial_world Machine.refusing_kernel)
                 (Machine.syscalls (Machine.initial_world Machine.refusing_kernel))
  = Machine.SysErr 13
  /\ exists w',
      Machine.run 0%nat (Lights.write_int Lights.LCD_FILE 255)
                  (Machine.initial_world Machine.refusing_kernel)
      = Some (- 13, w')
      /\ - 13 < 0.
Proof.
  split; [reflexivity|].
  exact (proj2 C8_open_warning_at_most_once 0%nat Lights.LCD_FILE 255
               (Machine.initial_world Machine.refusing_kernel) 13%positive eq_refl).
Defined.

(** ** Serialization of the handlers *)

Module ThreadFacts.
Import Machine Lights Threads.

Lemma lock_free_bind {A B : Type} (p : prog A) (f : A -> prog B) :
  lock_free p -> (forall a, lock_free (f a)) -> lock_free (bind p f).
Proof.
  intros Hp Hf. induction Hp as [a | X e k He _ IH]; simpl.
  - apply Hf.
  - now constructor.
Qed.

Lemma lock_free_perform {X : Type} (e : action X) :
  plain e = true -> lock_free (perform e).
Proof. intros He. constructor; [exact He | constructor]. Qed.

Lemma lock_free_write_int path value : lock_free (write_int path value).
Proof.
  unfold write_int, LOGV, LOGE.
  apply lock_free_bind; [now apply lock_free_perform | intros _].
  apply lock_free_bind; [now apply lock_free_perform | intros fd].
  destruct (0 <=? fd).
  - apply lock_free_bind; [now apply lock_free_perform | intros amt].
    apply lock_free_bind; [now apply lock_free_perform | intros _].
    destruct (amt =? -1).
    + apply lock_free_bind; [now apply lock_free_perform | intros e].
      constructor.
    + constructor.
  - apply lock_free_bind; [now apply lock_free_perform | intros warned].
    apply lock_free_bind.
    + destruct (warned =? 0).
      * apply lock_free_bind; [now apply lock_free_perform | intros _].
        now apply lock_free_perform.
      * constructor.
    + intros _.
      apply lock_free_bind; [now apply lock_free_perform | intros e].
      constructor.
Qed.

(** Inside a critical section, a lock-free stretch keeps the discipline. *)
Lemma disciplined_lock_free {A B : Type} (p : prog A) (f : A -> prog B) :
  lock_free p -> (forall a, disciplined true (f a)) ->
  disciplined true (bind p f).
Proof.
  intros Hp Hf. induction Hp as [a | X e k He _ IH]; simpl.
  - apply Hf.
  - now apply d_plain.
Qed.

Lemma disciplined_bind {A B : Type} (b : bool) (p : prog A) (f : A -> prog B) :
  disciplined b p -> (forall a, disciplined false (f a)) ->
  disciplined b (bind p f).
Proof.
  intros Hp Hf.
  induction Hp as [a | k _ IH | k _ IH | X e k He _ IH]; simpl.
  - apply Hf.
  - now apply d_lock.
  - now apply d_unlock.
  - now apply d_plain.
Qed.

Lemma disciplined_unlock_ret {A : Type} (a : A) :
  disciplined true (bind pthread_mutex_unlock (fun _ => Ret a)).
Proof. apply d_unlock. constructor. Qed.

Ltac head_step :=
  unfold pthread_mutex_lock, LOGE, LOGV, perform; cbn [bind].

Lemma disciplined_set_light_backlight dev s :
  disciplined false (set_light_backlight dev s).
Proof.
  unfold set_light_backlight. head_step. apply d_lock. head_step.
  apply d_plain; [reflexivity | intros _].
  apply disciplined_lock_free; [apply lock_free_write_int | intros err].
  apply disciplined_unlock_ret.
Qed.

Lemma disciplined_set_light_buttons dev s :
  disciplined false (set_light_buttons dev s).
Proof.
  unfold set_light_buttons. head_step. apply d_lock. head_step.
  apply d_plain; [reflexivity | intros _].
  apply disciplined_lock_free; [apply lock_free_write_int | intros err].
  apply disciplined_unlock_ret.
Qed.

Lemma disciplined_set_light_notifications dev s :
  disciplined false (set_light_notifications dev s).
Proof.
  unfold set_light_notifications. head_step. apply d_lock.
  apply d_plain; [reflexivity | intros _].
  apply d_plain; [reflexivity | intros _].
  apply disciplined_lock_free; [apply lock_free_write_int | intros err].
  apply disciplined_lock_free; [| intros err'; apply disciplined_unlock_ret].
  destruct (_ || _); [| constructor].
  destruct (Int32.truthy _);
    (constructor; [reflexivity | intros _; apply lock_free_write_int]).
Qed.

Lemma disciplined_thread_prog calls : disciplined false (thread_prog calls).
Proof.
  induction calls as [| [[h dev] s] calls IH]; cbn [thread_prog].
  - constructor.
  - apply disciplined_bind; [| intros _; exact IH].
    destruct h; cbn [call_handler].
    + apply disciplined_set_light_backlight.
    + apply disciplined_set_light_buttons.
    + apply disciplined_set_light_notifications.
Qed.

(** *** Inverting the discipline *)

Lemma disciplined_inv {A : Type} (b : bool) (p : prog A) :
  disciplined b p ->
  match p with
  | Ret _ => b = false
  | Vis e k =>
      match e in action X return (X -> prog A) -> Prop with
      | Pthread_mutex_lock => fun k => b = false /\ disciplined true (k tt)
      | Pthread_mutex_unlock => fun k => b = true /\ disciplined false (k tt)
      | Pthread_mutex_init => fun _ => False
      | Free_device _ => fun _ => False
      | _ => fun k => b = true /\ forall x, disciplined true (k x)
      end k
  end.
Proof.
  intros H. destruct H as [a | k H | k H | X e k He H].
  - reflexivity.
  - now split.
  - now split.
  - destruct e; try discriminate He; now split.
Qed.

Lemma disciplined_plain_inv {A X : Type} (b : bool) (e : action X) (k : X -> prog A) :
  disciplined b (Vis e k) -> plain e = true ->
  b = true /\ forall x, disciplined true (k x).
Proof.
  intros H He. apply disciplined_inv in H.
  destruct e; try discriminate He; exact H.
Qed.

Lemma plain_kind {X : Type} (e : action X) : plain e = true -> kind_of e = KAccess.
Proof. destruct e; intros H; try discriminate H; reflexivity. Qed.

(** A plain primitive leaves the mutex as it is. *)
Lemma plain_keeps_lock {X : Type} (t : tid) (e : action X) (w : world) x w' :
  plain e = true -> do_action t e w = Some (x, w') -> g_lock w' = g_lock w.
Proof.
  intros He D.
  destruct e; try discriminate He; cbn [do_action] in D;
    try (injection D as _ <-; reflexivity).
  - destruct (g_init w); injection D as _ <-; reflexivity.
  - unfold syscall in D. destruct (kernel w (syscalls w));
      destruct (0 <=? _); injection D as _ <-; reflexivity.
  - unfold syscall in D. destruct (kernel w (syscalls w));
      injection D as _ <-; reflexivity.
  - unfold syscall in D. destruct (kernel w (syscalls w));
      injection D as _ <-; reflexivity.
Qed.

Lemma holds_iff (t : tid) (w : world) : holds t w = true <-> g_lock w = Some t.
Proof.
  unfold holds. destruct (g_lock w) as [o|].
  - rewrite Nat.eqb_eq. split; congruence.
  - split; discriminate.
Qed.

Lemma holds_same_lock (t : tid) (w w' : world) :
  g_lock w' = g_lock w -> holds t w' = holds t w.
Proof. unfold holds. now intros ->. Qed.

Lemma nth_error_replace_same {A : Type} (l : list A) n (x y : A) :
  nth_error l n = Some y -> nth_error (replace n x l) n = Some x.
Proof.
  revert n. induction l as [| a l IH]; intros [| n]; simpl; try discriminate.
  - reflexivity.
  - apply IH.
Qed.

Lemma nth_error_replace_other {A : Type} (l : list A) n m (x : A) :
  n <> m -> nth_error (replace n x l) m = nth_error l m.
Proof.
  revert n m. induction l as [| a l IH]; intros [| n] [| m] N; simpl;
    try reflexivity.
  - contradiction.
  - apply IH. congruence.
Qed.

(** *** One step *)

(** A step of a well-locked pool is a step the serialization automaton
    accepts, from the state given by the mutex before the step to the one
    given by the mutex after it; and the pool stays well locked. *)
Lemma step_well_locked (t : tid) (c c' : config) (l : label) :
  well_locked c -> step t c = Some (l, c') ->
  well_locked c'
  /\ forall ls, serialized (g_lock (snd c)) (l :: ls)
                = serialized (g_lock (snd c')) ls.
Proof.
  destruct c as [pool w]. unfold step. cbn [fst snd]. intros WL.
  destruct (nth_error pool t) as [[a | X e k] |] eqn:Nth; try discriminate.
  destruct (do_action t e w) as [[x w'] |] eqn:D; try discriminate.
  intros E. injection E as <- <-. cbn [fst snd].
  pose proof (WL t _ Nth) as Dt. cbn [fst snd] in Dt.
  assert (Others : forall bx : bool,
             holds t w' = bx -> disciplined bx (k x) ->
             (forall t', t' <> t -> holds t' w' = holds t' w) ->
             well_locked (replace t (k x) pool, w')).
  { intros bx Hb Hk Hother t' p. cbn [fst snd].
    destruct (Nat.eq_dec t t') as [<- | N].
    - rewrite (nth_error_replace_same _ _ _ _ Nth). intros [= <-].
      now rewrite Hb.
    - rewrite (nth_error_replace_other _ _ _ _ N). intros Nth'.
      rewrite Hother by congruence. exact (WL t' p Nth'). }
  destruct (plain e) eqn:Pl.
  - (* a plain primitive, inside the critical section of [t] *)
    destruct (disciplined_plain_inv _ _ _ Dt Pl) as [Ht Hk].
    pose proof (plain_keeps_lock _ _ _ _ _ Pl D) as Lk.
    split.
    + apply (Others true).
      * now rewrite (holds_same_lock _ _ _ Lk).
      * apply Hk.
      * intros t' _. now apply holds_same_lock.
    + intros ls. rewrite Lk, (plain_kind _ Pl).
      apply holds_iff in Ht. rewrite Ht. cbn [serialized].
      now rewrite Nat.eqb_refl.
  - apply disciplined_inv in Dt.
    destruct e; try discriminate Pl; cbn [do_action] in D.
    + (* lock *)
      destruct Dt as [_ Hk].
      destruct (g_lock w) eqn:Lw; try discriminate D.
      injection D as <- <-. split.
      * apply (Others true).
        -- unfold holds. cbn [g_lock set_g_lock]. apply Nat.eqb_refl.
        -- exact Hk.
        -- intros t' N. unfold holds. cbn [g_lock set_g_lock]. rewrite Lw.
           apply Nat.eqb_neq. congruence.
      * intros ls. reflexivity.
    + (* unlock *)
      destruct Dt as [Ht Hk]. apply holds_iff in Ht. rewrite Ht in D |- *.
      rewrite Nat.eqb_refl in D. injection D as <- <-. split.
      * apply (Others false).
        -- reflexivity.
        -- exact Hk.
        -- intros t' N. unfold holds. cbn [g_lock set_g_lock]. rewrite Ht.
           symmetry. apply Nat.eqb_neq. congruence.
      * intros ls. cbn [serialized kind_of g_lock set_g_lock].
        now rewrite Nat.eqb_refl.
    + (* re-initialising the mutex: ruled out by the discipline *)
      contradiction.
    + (* freeing a handle: ruled out by the discipline *)
      contradiction.
Qed.

(** *** Whole runs *)

Lemma run_schedule_serialized (sched : list tid) (c : config) :
  well_locked c ->
  serialized (g_lock (snd c)) (fst (run_schedule sched c)) = true
  /\ well_locked (snd (run_schedule sched c)).
Proof.
  revert c. induction sched as [| t sched IH]; intros c WL.
  - now split.
  - cbn [run_schedule].
    destruct (step t c) as [[l c'] |] eqn:S.
    + destruct (step_well_locked t c c' l WL S) as [WL' Ser].
      destruct (IH c' WL') as [IH1 IH2].
      destruct (run_schedule sched c') as [ls c''].
      cbn [fst snd] in *. split; [| exact IH2].
      now rewrite Ser.
    + now apply IH.
Qed.

Lemma well_locked_start (callss : list (list call)) (w : world) :
  g_lock w = None -> well_locked (map thread_prog callss, w).
Proof.
  intros L t p. cbn [fst snd]. intros Nth.
  unfold holds. rewrite L.
  apply nth_error_In, in_map_iff in Nth. destruct Nth as (calls & <- & _).
  apply disciplined_thread_prog.
Qed.

End ThreadFacts.

Section Thread_claims.
Import Machine Lights Threads ThreadFacts.


End Thread_claims.



(** * Further properties *)

(** ** More on the codec *)

Module CodecMore.
Import Int32 Codec CodecFacts Observe.

Lemma channels_of_pack a r g b :
  is_byte r -> is_byte g -> is_byte b ->
  red (pack_argb a r g b mod 2 ^ 24) = r
  /\ green (pack_argb a r g b mod 2 ^ 24) = g
  /\ blue (pack_argb a r g b mod 2 ^ 24) = b.
Proof.
  unfold is_byte, pack_argb. intros Hr Hg Hb.
  assert (E : (a * 2 ^ 24 + r * 65536 + g * 256 + b) mod 2 ^ 24
              = r * 65536 + g * 256 + b).
  { symmetry. apply (Z.mod_unique_pos _ _ a); lia. }
  rewrite E. unfold red, green, blue.
  assert (E1 : (r * 65536 + g * 256 + b) / 65536 = r).
  { symmetry. apply (Z.div_unique_pos _ _ _ (g * 256 + b)); lia. }
  assert (E2 : (r * 65536 + g * 256 + b) / 256 = r * 256 + g).
  { symmetry. apply (Z.div_unique_pos _ _ _ b); lia. }
  rewrite E1, E2. repeat split.
  - apply Z.mod_small; lia.
  - symmetry. apply (Z.mod_unique_pos _ _ r); lia.
  - symmetry. apply (Z.mod_unique_pos _ _ (r * 256 + g)); lia.
Qed.

Lemma brightness_of_pack a r g b :
  is_byte r -> is_byte g -> is_byte b ->
  rgb_to_brightness (state_of_color (pack_argb a r g b))
  = (77 * r + 150 * g + 29 * b) / 256.
Proof.
  intros Hr Hg Hb. rewrite rgb_to_brightness_arith. cbn [color state_of_color].
  destruct (channels_of_pack a r g b Hr Hg Hb) as (-> & -> & ->). reflexivity.
Qed.

End CodecMore.

Section Codec_extras.
Import Int32 Codec CodecFacts Observe CodecMore.

(** A grey colour, whatever its top byte, has its grey level as
    brightness: the three weights add up to 256. *)
Theorem X1_grey_brightness (a v : Z) :
  is_byte v ->
  rgb_to_brightness (state_of_color (pack_argb a v v v)) = v.
Proof.
  intros Hv. rewrite (brightness_of_pack a v v v Hv Hv Hv).
  replace (77 * v + 150 * v + 29 * v) with (v * 256) by lia.
  apply Z.div_mul. lia.
Qed.

(** The brightness lies between the smallest and the largest of the three
    colour channels. *)
Theorem X2_brightness_between_channels (s : light_state_t) :
  Z.min (red (color s mod 2 ^ 24))
        (Z.min (green (color s mod 2 ^ 24)) (blue (color s mod 2 ^ 24)))
  <= rgb_to_brightness s
  <= Z.max (red (color s mod 2 ^ 24))
           (Z.max (green (color s mod 2 ^ 24)) (blue (color s mod 2 ^ 24))).
Proof.
  rewrite rgb_to_brightness_arith.
  set (r := red _). set (g := green _). set (b := blue _).
  split.
  - apply Z.div_le_lower_bound; lia.
  - apply Z.div_le_upper_bound; lia.
Qed.

(** Raising a channel never lowers the brightness. *)
Theorem X3_brightness_monotone (a a' r g b r' g' b' : Z) :
  is_byte r -> is_byte g -> is_byte b ->
  is_byte r' -> is_byte g' -> is_byte b' ->
  r <= r' -> g <= g' -> b <= b' ->
  rgb_to_brightness (state_of_color (pack_argb a r g b))
  <= rgb_to_brightness (state_of_color (pack_argb a' r' g' b')).
Proof.
  intros Hr Hg Hb Hr' Hg' Hb' L1 L2 L3.
  rewrite !brightness_of_pack by assumption.
  apply Z.div_le_mono; lia.
Qed.

(** A state that is not lit has brightness 0. *)
Theorem X4_unlit_is_dark (s : light_state_t) :
  truthy (is_lit s) = false -> rgb_to_brightness s = 0.
Proof.
  unfold truthy, is_lit. rewrite negb_false_iff, Z.eqb_eq, land_mask32.
  intros H.
  apply (to_int_zero_iff _ (Z.mod_pos_bound (color s) (2 ^ 32) eq_refl)) in H.
  apply Z.mod_divide in H; [| lia]. destruct H as [q Hq].
  assert (E : color s mod 2 ^ 24 = 0).
  { rewrite Hq. replace (q * 2 ^ 32) with (q * 2 ^ 8 * 2 ^ 24) by lia.
    apply Z.mod_mul. lia. }
  rewrite rgb_to_brightness_arith, E. reflexivity.
Qed.

End Codec_extras.

Lemma X1_grey_brightness_witness :
  Observe.is_byte 128
  /\ Codec.rgb_to_brightness (state_of_color (Observe.pack_argb 255 128 128 128)) = 128.
Proof.
  assert (B : Observe.is_byte 128) by (unfold Observe.is_byte; lia).
  split; [exact B | exact (X1_grey_brightness 255 128 B)].
Defined.

Lemma X3_brightness_monotone_witness :
  Codec.rgb_to_brightness (state_of_color (Observe.pack_argb 0 10 20 30))
  <= Codec.rgb_to_brightness (state_of_color (Observe.pack_argb 255 10 200 30)).
Proof.
  apply X3_brightness_monotone; unfold Observe.is_byte; lia.
Defined.

Lemma X4_unlit_is_dark_witness :
  Int32.truthy (Codec.is_lit (state_of_color 0)) = false
  /\ Codec.rgb_to_brightness (state_of_color 0) = 0.
Proof.
  split; [reflexivity | exact (X4_unlit_is_dark (state_of_color 0) eq_refl)].
Defined.

(** ** The text [write_int] formats *)

Module FormatFacts.
Import Machine Lights Observe.

Lemma length_append (a b : string) :
  String.length (a ++ b) = (String.length a + String.length b)%nat.
Proof. induction a as [| c a IH]; simpl; [reflexivity | now rewrite IH]. Qed.

Lemma append_cancel_r (a b c : string) : (a ++ c = b ++ c)%string -> a = b.
Proof.
  revert b. induction a as [| x a IH]; intros [| y b] E.
  - reflexivity.
  - exfalso. apply (f_equal String.length) in E.
    simpl in E. rewrite length_append in E. lia.
  - exfalso. apply (f_equal String.length) in E.
    simpl in E. rewrite length_append in E. lia.
  - simpl in E. injection E as -> E. f_equal. now apply IH.
Qed.

Lemma length_string_of_uint (d : Decimal.uint) :
  String.length (NilEmpty.string_of_uint d) = Decimal.nb_digits d.
Proof.
  induction d as [| d IH | d IH | d IH | d IH | d IH | d IH | d IH | d IH
                  | d IH | d IH];
    cbn [NilEmpty.string_of_uint String.length Decimal.nb_digits];
    [reflexivity | now rewrite IH ..].
Qed.

Lemma usize_nb_digits (d : Decimal.uint) :
  N.to_nat (DecimalPos.Unsigned.usize d) = Decimal.nb_digits d.
Proof.
  induction d as [| d IH | d IH | d IH | d IH | d IH | d IH | d IH | d IH
                  | d IH | d IH];
    cbn [DecimalPos.Unsigned.usize Decimal.nb_digits];
    [reflexivity | now rewrite Nnat.N2Nat.inj_succ, IH ..].
Qed.

(** The decimal form of a positive number is in normal form. *)
Lemma to_uint_unorm (p : positive) :
  Decimal.unorm (Pos.to_uint p) = Pos.to_uint p.
Proof.
  rewrite <- (DecimalPos.Unsigned.to_of (Pos.to_uint p)).
  now rewrite DecimalPos.Unsigned.of_to.
Qed.

(** A number below [10^10] has at most ten digits. *)
Lemma to_uint_digits (p : positive) :
  (N.pos p < 10 ^ 10)%N -> (Decimal.nb_digits (Pos.to_uint p) <= 10)%nat.
Proof.
  intros Hp.
  pose proof (DecimalPos.Unsigned.of_to p) as Hof.
  pose proof (to_uint_unorm p) as Hun.
  pose proof (DecimalPos.Unsigned.to_uint_nonnil p) as Hnil.
  pose proof (DecimalPos.Unsigned.to_uint_nonzero p) as Hz.
  destruct (Pos.to_uint p) as [| l | l | l | l | l | l | l | l | l | l];
    [ contradiction | | | | | | | | | | ];
    try (cbn [Pos.of_uint] in Hof;
         rewrite DecimalPos.Unsigned.of_uint_acc_rev in Hof;
         cbn [Decimal.nb_digits]; rewrite <- usize_nb_digits;
         assert (B : (10 ^ DecimalPos.Unsigned.usize l < 10 ^ 10)%N) by lia;
         apply N.pow_lt_mono_r_iff in B; lia).
  (* a leading zero *)
  exfalso. destruct l as [| l | l | l | l | l | l | l | l | l | l];
    [ now apply Hz | .. ];
    (change (Decimal.unorm (Decimal.D0 ?x)) with (Decimal.unorm x) in Hun;
     match type of Hun with
     | Decimal.unorm ?x = _ =>
         assert (N : x <> Decimal.Nil) by discriminate;
         pose proof (DecimalFacts.nb_digits_unorm x N) as L;
         rewrite Hun in L; cbn [Decimal.nb_digits] in L; lia
     end).
Qed.

Lemma length_string_of_pos (p : positive) :
  (N.pos p < 10 ^ 10)%N ->
  (String.length (NilZero.string_of_uint (Pos.to_uint p)) <= 10)%nat.
Proof.
  intros Hp. pose proof (to_uint_digits p Hp) as D.
  pose proof (DecimalPos.Unsigned.to_uint_nonnil p) as Hnil.
  destruct (Pos.to_uint p); [contradiction | ..];
    unfold NilZero.string_of_uint; now rewrite length_string_of_uint.
Qed.

Lemma to_int_not_nil (v : Z) :
  Z.to_int v <> Decimal.Pos Decimal.Nil /\ Z.to_int v <> Decimal.Neg Decimal.Nil.
Proof.
  destruct v as [| p | p]; cbn [Z.to_int]; split; try discriminate;
    intros [= E]; now apply (DecimalPos.Unsigned.to_uint_nonnil p).
Qed.

End FormatFacts.

Section Format_extras.
Import Machine Lights Observe FormatFacts.

(** For every value of type [int], the text of [sprintf "%d\n"] has at most
    12 characters, so with its final NUL it fits the 20-byte buffer of
    [write_int]. *)
Theorem X5_format_fits_buffer (value : Z) :
  is_int value ->
  (String.length (sprintf_d_nl value) <= 12)%nat
  /\ (String.length (sprintf_d_nl value) + 1 <= buffer_size)%nat.
Proof.
  unfold is_int, buffer_size, sprintf_d_nl. intros Hv.
  rewrite length_append. change (String.length nl) with 1%nat.
  assert (L : (String.length (NilZero.string_of_int (Z.to_int value)) <= 11)%nat).
  { destruct value as [| p | p]; cbn [Z.to_int NilZero.string_of_int].
    - simpl. lia.
    - assert (Hp : (N.pos p < 10 ^ 10)%N) by lia.
      pose proof (length_string_of_pos p Hp). lia.
    - assert (Hp : (N.pos p < 10 ^ 10)%N) by lia.
      pose proof (length_string_of_pos p Hp). cbn [String.length]. lia. }
  lia.
Qed.

(** Different values are formatted to different texts: what is written to
    a control file determines the number. *)
Theorem X6_format_injective (v1 v2 : Z) :
  sprintf_d_nl v1 = sprintf_d_nl v2 -> v1 = v2.
Proof.
  unfold sprintf_d_nl. intros E. apply append_cancel_r in E.
  apply DecimalZ.to_int_inj.
  destruct (to_int_not_nil v1) as [A1 B1], (to_int_not_nil v2) as [A2 B2].
  pose proof (NilZero.isi _ A1 B1) as I1.
  pose proof (NilZero.isi _ A2 B2) as I2.
  rewrite E in I1. congruence.
Qed.

End Format_extras.

Lemma X5_format_fits_buffer_witness :
  Observe.is_int (- 2147483648)
  /\ (String.length (Lights.sprintf_d_nl (- 2147483648)) <= 12)%nat.
Proof.
  assert (I : Observe.is_int (- 2147483648)) by (unfold Observe.is_int; lia).
  split; [exact I | exact (proj1 (X5_format_fits_buffer _ I))].
Defined.

Lemma X6_format_injective_witness :
  Lights.sprintf_d_nl 255 = Lights.sprintf_d_nl (200 + 55) /\ 255 = 200 + 55.
Proof.
  split; [reflexivity | exact (X6_format_injective 255 (200 + 55) eq_refl)].
Defined.

(** ** More on [write_int] and the handlers *)

Module HandlerMore.
Import Int32 Machine Lights Threads Post Observe MachineFacts.

Lemma requests_of_app a b : requests_of (a ++ b) = requests_of a ++ requests_of b.
Proof.
  induction a as [| e a IH]; [reflexivity|].
  destruct e as [[] [] | | |]; cbn [app requests_of]; now rewrite IH.
Qed.

Lemma opened_fds_app a b : opened_fds (a ++ b) = opened_fds a ++ opened_fds b.
Proof.
  induction a as [| e a IH]; [reflexivity|].
  destruct e as [| path r | |]; cbn [app opened_fds]; rewrite IH;
    [| destruct (0 <=? r) | |]; reflexivity.
Qed.

Lemma closed_fds_app a b : closed_fds (a ++ b) = closed_fds a ++ closed_fds b.
Proof.
  induction a as [| e a IH]; [reflexivity|].
  destruct e; cbn [app closed_fds]; now rewrite IH.
Qed.

Lemma failed_opens_app a b :
  failed_opens (a ++ b) = (failed_opens a + failed_opens b)%nat.
Proof.
  induction a as [| e a IH]; [reflexivity|].
  destruct e as [| path r | |]; cbn [app failed_opens]; rewrite IH;
    [| destruct (0 <=? r) | |]; reflexivity.
Qed.

(** What one [write_int] call adds to the trace. *)
Lemma write_int_obs_holds (t : tid) (path : string) (value : Z) (w : world) r w' :
  run t (write_int path value) w = Some (r, w') ->
  exists evs, trace w' = trace w ++ evs /\ write_int_obs path value w w' evs.
Proof.
  destruct (kernel w (syscalls w)) as [fd | e1] eqn:K1;
  destruct (kernel w (S (syscalls w))) as [amt | e2] eqn:K2;
  destruct (kernel w (S (S (syscalls w)))) as [c | e3] eqn:K3;
  destruct (already_warned w =? 0) eqn:W;
  unfold write_int, LOGV, LOGE, perform;
  repeat (exec; unfold syscall; exec; rewrite ?K1, ?K2, ?K3, ?W);
  change (0 <=? -1) with false; exec; rewrite ?W; exec;
  intros E; injection E as <- <-;
  (eexists; split;
   [ cbn [trace emit tick set_errno set_fdtab set_already_warned];
     rewrite <- ?app_assoc; reflexivity
   | constructor; unfold next_ok; rewrite ?K1;
     cbn [requests_of opened_fds closed_fds failed_opens syscalls
          emit tick set_errno set_fdtab set_already_warned app];
     rewrite ?of_N_nonneg; reflexivity ]).
Qed.

Lemma run_write_int_all (t : tid) (path : string) (value : Z) (w : world) :
  exists r w' evs,
    run t (write_int path value) w = Some (r, w')
    /\ write_int_post path value w r w'
    /\ trace w' = trace w ++ evs
    /\ write_int_events path value w evs
    /\ write_int_obs path value w w' evs.
Proof.
  destruct (run_write_int t path value w) as (r & w' & E & P).
  destruct (wi_trace _ _ _ _ _ P) as (evs & T & Ev).
  destruct (write_int_obs_holds t path value w r w' E) as (evs' & T' & Ob).
  assert (evs' = evs) as -> by (apply (app_inv_head (trace w)); congruence).
  exists r, w', evs.
  split; [exact E|]. split; [exact P|]. split; [exact T|].
  split; [exact Ev | exact Ob].
Qed.

(** *** Stretches of a handler *)

Lemma sp_start (t : tid) (w : world) :
  section_post (Some t) [] w (set_g_lock (Some t) w).
Proof.
  constructor; try reflexivity.
  - exists []. cbn [trace set_g_lock]. now rewrite app_nil_r.
  - intros H. exact H.
Qed.

(** A store to one of the shared variables, or the release of the mutex. *)
Lemma sp_silent (o o' : option tid) reqs (w w1 w2 : world) :
  section_post o reqs w w1 ->
  g_lock w2 = o' -> g_init w2 = g_init w1 -> heap w2 = heap w1 ->
  kernel w2 = kernel w1 -> trace w2 = trace w1 ->
  already_warned w2 = already_warned w1 ->
  section_post o' reqs w w2.
Proof.
  intros [L I H K T Wn] L2 I2 H2 K2 T2 A2.
  constructor; try congruence.
  - now rewrite T2.
  - intros Hw. specialize (Wn Hw). unfold warn_exact in *.
    now rewrite T2, A2.
Qed.

(** A log line other than the open-failure warning and the entry line of
    [write_int]. *)
Lemma sp_log (o : option tid) reqs (w w1 : world) lvl m :
  section_post o reqs w w1 ->
  is_open_warning (EvLog lvl m) = false ->
  requests_of [EvLog lvl m] = [] ->
  section_post o reqs w (emit (EvLog lvl m) w1).
Proof.
  intros [L I H K (evs & T & B & R) Wn] Nw Nr.
  constructor; try assumption.
  - exists (evs ++ [EvLog lvl m]). cbn [trace emit].
    rewrite T, app_assoc, opened_fds_app, closed_fds_app, requests_of_app, B, R, Nr.
    repeat split. now rewrite app_nil_r.
  - intros Hw. specialize (Wn Hw). unfold warn_exact in *.
    cbn [trace emit already_warned].
    rewrite open_warnings_app, failed_opens_app.
    unfold open_warnings at 2. cbn [filter]. rewrite Nw.
    cbn [List.length failed_opens]. now rewrite !Nat.add_0_r.
Qed.

Lemma warn_exact_write_int path value (w w' : world) r evs :
  write_int_post path value w r w' ->
  trace w' = trace w ++ evs ->
  write_int_events path value w evs ->
  write_int_obs path value w w' evs ->
  warn_exact w -> warn_exact w'.
Proof.
  intros P T (_ & _ & Nw) Ob [W1 W2]. unfold warn_exact.
  rewrite T, open_warnings_app, failed_opens_app, Nw, (wo_failed _ _ _ _ _ Ob),
    (wi_warned _ _ _ _ _ P).
  unfold new_warnings, warned_after.
  destruct (next_ok w).
  - rewrite !Nat.add_0_r. now split.
  - destruct (already_warned w =? 0) eqn:A.
    + apply Z.eqb_eq in A. apply W2 in A. rewrite A in W1 |- *.
      rewrite W1. split; [reflexivity | split; [discriminate | lia]].
    + apply Z.eqb_neq in A.
      assert (failed_opens (trace w) <> O) by (intros F; apply A, W2, F).
      split; [lia | split; [contradiction | lia]].
Qed.

Lemma sp_write_int (t : tid) (o : option tid) reqs path value (w w1 : world) :
  section_post o reqs w w1 ->
  exists r w2,
    run t (write_int path value) w1 = Some (r, w2)
    /\ write_int_post path value w1 r w2
    /\ section_post o (reqs ++ [(path, value)]) w w2.
Proof.
  intros [L I H K (evs & T & B & R) Wn].
  destruct (run_write_int_all t path value w1) as (r & w2 & evs2 & E & P & T2 & Ev & Ob).
  exists r, w2. split; [exact E | split; [exact P|]].
  pose proof (wi_frame _ _ _ _ _ P) as F.
  constructor.
  - now rewrite (fr_lock _ _ F).
  - now rewrite (fr_init _ _ F).
  - now rewrite (fr_heap _ _ F).
  - now rewrite (fr_kernel _ _ F).
  - exists (evs ++ evs2).
    rewrite T2, T, app_assoc, opened_fds_app, closed_fds_app, requests_of_app,
      B, R, (wo_balance _ _ _ _ _ Ob), (wo_requests _ _ _ _ _ Ob).
    repeat split.
  - intros Hw. apply (warn_exact_write_int path value w1 w2 r evs2 P T2 Ev Ob).
    apply Wn, Hw.
Qed.

Lemma sp_unlock (t : tid) reqs (w w1 : world) {A : Type} (a : A) :
  section_post (Some t) reqs w w1 ->
  run t (bind pthread_mutex_unlock (fun _ => Ret a)) w1
  = Some (a, set_g_lock None w1)
  /\ handler_post reqs w (set_g_lock None w1).
Proof.
  intros Sp. split.
  - unfold pthread_mutex_unlock, perform. exec.
    rewrite (sp_lock _ _ _ _ Sp). now rewrite Nat.eqb_refl.
  - apply (sp_silent _ None _ _ _ _ Sp); reflexivity.
Qed.

(** *** The three handlers *)

Lemma sp_store_backlight t reqs w w1 v :
  section_post (Some t) reqs w w1 ->
  section_post (Some t) reqs w (set_g_backlight v w1).
Proof.
  intros Sp. apply (sp_silent _ _ _ _ _ _ Sp); try reflexivity. apply Sp.
Qed.

Lemma sp_store_buttons t reqs w w1 v :
  section_post (Some t) reqs w w1 ->
  section_post (Some t) reqs w (set_g_buttons v w1).
Proof.
  intros Sp. apply (sp_silent _ _ _ _ _ _ Sp); try reflexivity. apply Sp.
Qed.

Lemma sp_store_notification t reqs w w1 v :
  section_post (Some t) reqs w w1 ->
  section_post (Some t) reqs w (set_g_notification v w1).
Proof.
  intros Sp. apply (sp_silent _ _ _ _ _ _ Sp); try reflexivity. apply Sp.
Qed.

Lemma call_backlight (t : tid) (dev : Z) (s : light_state_t) (w : world) :
  g_lock w = None ->
  exists r w',
    run t (set_light_backlight dev s) w = Some (r, w')
    /\ handler_post (handler_requests Set_light_backlight s) w w'
    /\ g_backlight w' = rgb_to_brightness s
    /\ g_buttons w' = g_buttons w
    /\ g_notification w' = g_notification w.
Proof.
  intros L.
  unfold set_light_backlight, pthread_mutex_lock, perform. exec. rewrite L.
  pose proof (sp_store_backlight t _ _ _ (rgb_to_brightness s) (sp_start t w)) as Sp1.
  destruct (sp_write_int t _ _ LCD_FILE (rgb_to_brightness s) _ _ Sp1)
    as (r & w2 & E & P & Sp2).
  rewrite run_bind, E.
  destruct (sp_unlock t _ _ _ r Sp2) as [U Hp].
  exists r, (set_g_lock None w2).
  pose proof (wi_frame _ _ _ _ _ P) as F.
  split; [exact U|]. split; [exact Hp|].
  exec. rewrite (fr_backlight _ _ F), (fr_buttons _ _ F), (fr_notification _ _ F).
  repeat split.
Qed.

Lemma call_buttons (t : tid) (dev : Z) (s : light_state_t) (w : world) :
  g_lock w = None ->
  exists r w',
    run t (set_light_buttons dev s) w = Some (r, w')
    /\ handler_post (handler_requests Set_light_buttons s) w w'
    /\ g_backlight w' = g_backlight w
    /\ g_buttons w' = is_lit s
    /\ g_notification w' = g_notification w.
Proof.
  intros L.
  unfold set_light_buttons, pthread_mutex_lock, perform. exec. rewrite L.
  pose proof (sp_store_buttons t _ _ _ (is_lit s) (sp_start t w)) as Sp1.
  fold (buttons_code s).
  destruct (sp_write_int t _ _ BUTTON_FILE (buttons_code s) _ _ Sp1)
    as (r & w2 & E & P & Sp2).
  rewrite run_bind, E.
  destruct (sp_unlock t _ _ _ r Sp2) as [U Hp].
  exists r, (set_g_lock None w2).
  pose proof (wi_frame _ _ _ _ _ P) as F.
  split; [exact U|]. split; [exact Hp|].
  exec. rewrite (fr_backlight _ _ F), (fr_buttons _ _ F), (fr_notification _ _ F).
  repeat split.
Qed.

Lemma call_notifications (t : tid) (dev : Z) (s : light_state_t) (w : world) :
  g_lock w = None ->
  exists w',
    run t (set_light_notifications dev s) w = Some (0, w')
    /\ handler_post (handler_requests Set_light_notifications s) w w'
    /\ g_backlight w' = g_backlight w
    /\ g_buttons w' = g_buttons w
    /\ g_notification w' = s.
Proof.
  intros L.
  unfold set_light_notifications, pthread_mutex_lock, LOGE, LOGV, perform.
  exec. rewrite L. exec.
  pose proof (sp_log _ _ _ _ ERROR (Msg_notifications_color (color s))
                (sp_store_notification t _ _ _ s (sp_start t w)) eq_refl eq_refl)
    as Sp0.
  destruct (sp_write_int t _ _ NOTIFICATION_FILE
              (if truthy (is_lit s) then BLN_NOTIFY_ON else BLN_NOTIFY_OFF) _ _ Sp0)
    as (r1 & w1 & E1 & P1 & Sp1).
  rewrite run_bind, E1, run_bind.
  pose proof (wi_frame _ _ _ _ _ P1) as F1.
  unfold handler_requests.
  destruct (sum_is_zero_or_bright s) as [C | C]; rewrite C.
  - destruct (truthy (Z.land (color s) 0x00ffffff)); exec.
    + pose proof (sp_log _ _ _ _ VERBOSE Msg_enable_bl Sp1 eq_refl eq_refl) as Sp2.
      destruct (sp_write_int t _ _ CM7_NOTIFICATION_FILE CM7_ENABLE_BL _ _ Sp2)
        as (r2 & w3 & E2 & P2 & Sp3).
      rewrite E2.
      destruct (sp_unlock t _ _ _ 0 Sp3) as [U Hp].
      exists (set_g_lock None w3).
      pose proof (wi_frame _ _ _ _ _ P2) as F2.
      split; [exact U|]. split; [exact Hp|].
      exec. rewrite (fr_backlight _ _ F2), (fr_buttons _ _ F2), (fr_notification _ _ F2).
      exec. rewrite (fr_backlight _ _ F1), (fr_buttons _ _ F1), (fr_notification _ _ F1).
      repeat split.
    + pose proof (sp_log _ _ _ _ VERBOSE Msg_disable_bl Sp1 eq_refl eq_refl) as Sp2.
      destruct (sp_write_int t _ _ CM7_NOTIFICATION_FILE CM7_DISABLE_BL _ _ Sp2)
        as (r2 & w3 & E2 & P2 & Sp3).
      rewrite E2.
      destruct (sp_unlock t _ _ _ 0 Sp3) as [U Hp].
      exists (set_g_lock None w3).
      pose proof (wi_frame _ _ _ _ _ P2) as F2.
      split; [exact U|]. split; [exact Hp|].
      exec. rewrite (fr_backlight _ _ F2), (fr_buttons _ _ F2), (fr_notification _ _ F2).
      exec. rewrite (fr_backlight _ _ F1), (fr_buttons _ _ F1), (fr_notification _ _ F1).
      repeat split.
  - exec.
    destruct (sp_unlock t _ _ _ 0 Sp1) as [U Hp].
    exists (set_g_lock None w1).
    split; [exact U|]. split; [exact Hp|].
    exec. rewrite (fr_backlight _ _ F1), (fr_buttons _ _ F1), (fr_notification _ _ F1).
    repeat split.
Qed.

Lemma handler_post_trans r1 r2 (w w1 w2 : world) :
  handler_post r1 w w1 -> handler_post r2 w1 w2 -> handler_post (r1 ++ r2) w w2.
Proof.
  intros [L1 I1 H1 K1 (e1 & T1 & B1 & R1) W1] [L2 I2 H2 K2 (e2 & T2 & B2 & R2) W2].
  constructor; try congruence.
  - exists (e1 ++ e2).
    rewrite T2, T1, app_assoc, opened_fds_app, closed_fds_app, requests_of_app,
      B1, B2, R1, R2.
    repeat split.
  - intros Hw. apply W2, W1, Hw.
Qed.

Lemma call_any (t : tid) (h : handler) (dev : Z) (s : light_state_t) (w : world) :
  g_lock w = None ->
  exists r w',
    run t (call_handler h dev s) w = Some (r, w')
    /\ handler_post (handler_requests h s) w w'.
Proof.
  intros L. destruct h; cbn [call_handler].
  - destruct (call_backlight t dev s w L) as (r & w' & R & Hp & _).
    exists r, w'. split; [exact R | exact Hp].
  - destruct (call_buttons t dev s w L) as (r & w' & R & Hp & _).
    exists r, w'. split; [exact R | exact Hp].
  - destruct (call_notifications t dev s w L) as (w' & R & Hp & _).
    exists 0, w'. split; [exact R | exact Hp].
Qed.

Lemma run_thread_prog (t : tid) (calls : list call) (w : world) :
  g_lock w = None ->
  exists w',
    run t (thread_prog calls) w = Some (tt, w')
    /\ handler_post (thread_requests calls) w w'.
Proof.
  revert w. induction calls as [| [[h dev] s] calls IH]; intros w L;
    cbn [thread_prog thread_requests].
  - exists w. split; [reflexivity|].
    constructor; try reflexivity; try assumption.
    + exists []. now rewrite app_nil_r.
    + intros H. exact H.
  - destruct (call_any t h dev s w L) as (r & w1 & R & Hp).
    destruct (IH w1 (sp_lock _ _ _ _ Hp)) as (w' & R' & Hp').
    exists w'. rewrite run_bind, R. split; [exact R'|].
    exact (handler_post_trans _ _ _ _ _ Hp Hp').
Qed.

(** The calls of the notification handler, in terms of the colour. *)
Lemma notification_requests_eq (s : light_state_t) :
  wf_light_state s ->
  handler_requests Set_light_notifications s = notification_requests s.
Proof.
  intros W. unfold handler_requests, notification_requests.
  pose proof (CodecFacts.rgb_to_brightness_range s) as Rg.
  assert (Lit : truthy (is_lit s) = negb (color s =? 0)).
  { unfold truthy, is_lit, Codec.is_lit. f_equal.
    rewrite CodecFacts.land_mask32.
    change (2 ^ 32) with modulus. fold (to_uint (color s)).
    rewrite (CodecFacts.to_uint_id_aux _ W).
    destruct (color s =? 0) eqn:C.
    - apply Z.eqb_eq in C. rewrite C. reflexivity.
    - apply Z.eqb_neq. apply Z.eqb_neq in C.
      now rewrite (CodecFacts.to_int_zero_iff _ W). }
  rewrite Lit.
  destruct (color s =? 0) eqn:C.
  - apply Z.eqb_eq in C. cbn [negb].
    assert (Sz : Codec.sum_is_zero (rgb_to_brightness s) s = true).
    { unfold Codec.sum_is_zero, rgb_to_brightness.
      rewrite CodecFacts.rgb_to_brightness_arith, C. reflexivity. }
    rewrite Sz, C. reflexivity.
  - apply Z.eqb_neq in C. cbn [negb].
    destruct (100 <? rgb_to_brightness s) eqn:B.
    + rewrite orb_true_r.
      assert (T : truthy (Z.land (color s) 0x00ffffff) = true).
      { apply CodecFacts.truthy_true_iff. rewrite CodecFacts.land_mask24. intros Z0.
        apply Z.ltb_lt in B. unfold rgb_to_brightness in B.
        rewrite CodecFacts.rgb_to_brightness_arith, Z0 in B.
        discriminate B. }
      now rewrite T.
    + rewrite orb_false_r.
      destruct (Codec.sum_is_zero (rgb_to_brightness s) s) eqn:Sz; [| reflexivity].
      exfalso.
      destruct (CodecFacts.sum_is_zero_solutions s W Sz) as [E | E]; [contradiction|].
      apply Z.ltb_ge in B. unfold rgb_to_brightness in B.
      rewrite CodecFacts.rgb_to_brightness_arith, E in B.
      apply B. reflexivity.
Qed.

End HandlerMore.

Section Handler_extras.
Import Int32 Machine Lights Threads Post Observe MachineFacts HandlerMore.

Variable t : tid.

(** [write_int] closes every descriptor it opens, also when the write
    fails; it makes one system call when the open fails and three
    otherwise; and when the open fails nothing is written. *)
Theorem X7_write_int_closes_what_it_opens (path : string) (value : Z) (w : world) :
  exists r w' evs,
    run t (write_int path value) w = Some (r, w')
    /\ trace w' = trace w ++ evs
    /\ opened_fds evs = closed_fds evs
    /\ syscalls w' = (if next_ok w then 3 + syscalls w else 1 + syscalls w)%nat
    /\ writes_of evs = (if next_ok w then [(Some path, sprintf_d_nl value)] else []).
Proof.
  destruct (run_write_int_all t path value w)
    as (r & w' & evs & E & P & T & (_ & Wr & _) & Ob).
  exists r, w', evs.
  split; [exact E|]. split; [exact T|].
  split; [exact (wo_balance _ _ _ _ _ Ob)|].
  split; [exact (wo_syscalls _ _ _ _ _ Ob) | exact Wr].
Qed.

(** The [write_int] calls of the notification handler, for a 32-bit
    colour: the LED file is given 0 when the colour is zero and 1
    otherwise; then the secondary file is given "disable" when the colour
    is zero, "enable" when the brightness is above 100, and is not touched
    in any other case. *)
Theorem X8_notification_requests (dev : Z) (s : light_state_t) (w : world) :
  wf_light_state s -> g_lock w = None ->
  exists w' evs,
    run t (set_light_notifications dev s) w = Some (0, w')
    /\ trace w' = trace w ++ evs
    /\ requests_of evs = notification_requests s.
Proof.
  intros W L.
  destruct (call_notifications t dev s w L) as (w' & R & Hp & _).
  destruct (sp_trace _ _ _ _ Hp) as (evs & T & _ & Rq).
  exists w', evs. split; [exact R|]. split; [exact T|].
  rewrite Rq. now apply notification_requests_eq.
Qed.

(** The notification handler stores the whole state it is given, flash
    fields included, and leaves the backlight and button variables, the
    heap of handles and the once-flag as they were; it returns with the
    mutex free. *)
Theorem X9_notification_state (dev : Z) (s : light_state_t) (w : world) :
  g_lock w = None ->
  exists w',
    run t (set_light_notifications dev s) w = Some (0, w')
    /\ g_notification w' = s
    /\ g_backlight w' = g_backlight w
    /\ g_buttons w' = g_buttons w
    /\ heap w' = heap w
    /\ g_init w' = g_init w
    /\ g_lock w' = None.
Proof.
  intros L.
  destruct (call_notifications t dev s w L) as (w' & R & Hp & B & Bt & N).
  exists w'. split; [exact R|]. split; [exact N|]. split; [exact B|].
  split; [exact Bt|]. split; [exact (sp_heap _ _ _ _ Hp)|].
  split; [exact (sp_init _ _ _ _ Hp) | exact (sp_lock _ _ _ _ Hp)].
Qed.

(** Any sequence of [set_light] calls made by one thread, started with the
    mutex free, runs to its end whatever the kernel answers, and ends with
    the mutex free, the handles and the once-flag untouched, every
    descriptor closed, and exactly the [write_int] calls of its handlers
    made, in order. *)
Theorem X10_calls_complete_and_release (calls : list call) (w : world) :
  g_lock w = None ->
  exists w' evs,
    run t (thread_prog calls) w = Some (tt, w')
    /\ g_lock w' = None
    /\ heap w' = heap w
    /\ g_init w' = g_init w
    /\ trace w' = trace w ++ evs
    /\ opened_fds evs = closed_fds evs
    /\ requests_of evs = thread_requests calls.
Proof.
  intros L.
  destruct (run_thread_prog t calls w L) as (w' & R & Hp).
  destruct (sp_trace _ _ _ _ Hp) as (evs & T & B & Rq).
  exists w', evs. split; [exact R|].
  split; [exact (sp_lock _ _ _ _ Hp)|]. split; [exact (sp_heap _ _ _ _ Hp)|].
  split; [exact (sp_init _ _ _ _ Hp)|]. split; [exact T|].
  split; [exact B | exact Rq].
Qed.

(** In a fresh process, after any sequence of [set_light] calls, the log
    holds one open-failure warning if some open has failed and none
    otherwise. *)
Theorem X11_warning_iff_failed_open
        (k : nat -> sys_ret) (calls : list call) :
  exists w',
    run t (thread_prog calls) (initial_world k) = Some (tt, w')
    /\ open_warnings (trace w') = Nat.min 1 (failed_opens (trace w')).
Proof.
  destruct (run_thread_prog t calls (initial_world k) eq_refl) as (w' & R & Hp).
  exists w'. split; [exact R|].
  apply (sp_warn _ _ _ _ Hp).
  split; [reflexivity | split; reflexivity].
Qed.

End Handler_extras.

Lemma X8_notification_requests_witness :
  wf_light_state (state_of_color 0x00FF0000)
  /\ Machine.g_lock (Machine.initial_world Machine.willing_kernel) = None
  /\ exists w' evs,
      Machine.run 0%nat (Lights.set_light_notifications 1 (state_of_color 0x00FF0000))
                  (Machine.initial_world Machine.willing_kernel) = Some (0, w')
      /\ Machine.trace w'
         = Machine.trace (Machine.initial_world Machine.willing_kernel) ++ evs
      /\ Observe.requests_of evs
         = Observe.notification_requests (state_of_color 0x00FF0000).
Proof.
  assert (W : wf_light_state (state_of_color 0x00FF0000))
    by (unfold wf_light_state, Int32.is_uint, Int32.modulus; simpl; lia).
  split; [exact W|]. split; [reflexivity|].
  exact (X8_notification_requests 0%nat 1 _
           (Machine.initial_world Machine.willing_kernel) W eq_refl).
Defined.

Lemma X9_notification_state_witness :
  Machine.g_lock (Machine.initial_world Machine.refusing_kernel) = None
  /\ exists w',
      Machine.run 0%nat
        (Lights.set_light_notifications 1 (mk_light_state 0x00FFFFFF 1 500 500 0))
        (Machine.initial_world Machine.refusing_kernel) = Some (0, w')
      /\ Machine.g_notification w' = mk_light_state 0x00FFFFFF 1 500 500 0.
Proof.
  split; [reflexivity|].
  destruct (X9_notification_state 0%nat 1 (mk_light_state 0x00FFFFFF 1 500 500 0)
              (Machine.initial_world Machine.refusing_kernel) eq_refl)
    as (w' & R & N & _).
  exists w'. split; [exact R | exact N].
Defined.

Lemma X10_calls_complete_and_release_witness :
  Machine.g_lock (Machine.initial_world Machine.refusing_kernel) = None
  /\ exists w' evs,
      Machine.run 0%nat
        (Threads.thread_prog (List.concat Threads.two_callers))
        (Machine.initial_world Machine.refusing_kernel) = Some (tt, w')
      /\ Machine.g_lock w' = None
      /\ Machine.heap w' = Machine.heap (Machine.initial_world Machine.refusing_kernel)
      /\ Machine.g_init w' = Machine.g_init (Machine.initial_world Machine.refusing_kernel)
      /\ Machine.trace w'
         = Machine.trace (Machine.initial_world Machine.refusing_kernel) ++ evs
      /\ Observe.opened_fds evs = Observe.closed_fds evs
      /\ Observe.requests_of evs
         = Observe.thread_requests (List.concat Threads.two_callers).
Proof.
  split; [reflexivity|].
  exact (X10_calls_complete_and_release 0%nat (List.concat Threads.two_callers)
           (Machine.initial_world Machine.refusing_kernel) eq_refl).
Defined.

(** ** Opening and closing handles *)

Module OpenFacts.
Import Int32 Machine Lights Observe MachineFacts.

Lemma fresh_ptr_above (h : list (Z * light_device_t)) p d :
  In (p, d) h -> p < fresh_ptr h.
Proof.
  unfold fresh_ptr. induction h as [| [q e] h IH]; cbn [In fold_right fst].
  - intros [].
  - intros [[= -> ->] | I]; [lia|]. specialize (IH I). lia.
Qed.

Lemma fresh_ptr_positive (h : list (Z * light_device_t)) : 0 < fresh_ptr h.
Proof.
  unfold fresh_ptr. induction h as [| [q e] h IH]; cbn [fold_right fst]; lia.
Qed.

Lemma lookup_handle_in (h : list (Z * light_device_t)) p d :
  lookup_handle p h = Some d -> In (p, d) h.
Proof.
  induction h as [| [q e] h IH]; cbn [lookup_handle In]; [discriminate|].
  destruct (q =? p) eqn:E.
  - apply Z.eqb_eq in E. intros [= ->]. left. now subst.
  - intros H. right. now apply IH.
Qed.

Lemma lookup_handle_fresh (h : list (Z * light_device_t)) :
  lookup_handle (fresh_ptr h) h = None.
Proof.
  destruct (lookup_handle (fresh_ptr h) h) as [d|] eqn:E; [|reflexivity].
  apply lookup_handle_in, fresh_ptr_above in E. lia.
Qed.

Lemma lookup_handle_remove_same (h : list (Z * light_device_t)) p :
  lookup_handle p (remove_key p h) = None.
Proof.
  unfold remove_key. induction h as [| [q e] h IH]; cbn [filter fst]; [reflexivity|].
  destruct (q =? p) eqn:E; cbn [negb]; [exact IH|].
  cbn [lookup_handle]. now rewrite E.
Qed.

Lemma lookup_handle_remove_other (h : list (Z * light_device_t)) p q :
  q <> p -> lookup_handle q (remove_key p h) = lookup_handle q h.
Proof.
  intros N. unfold remove_key.
  induction h as [| [r e] h IH]; cbn [filter fst]; [reflexivity|].
  destruct (r =? p) eqn:E; cbn [negb lookup_handle].
  - apply Z.eqb_eq in E. subst r.
    destruct (p =? q) eqn:E'; [apply Z.eqb_eq in E'; congruence | exact IH].
  - now rewrite IH.
Qed.

Lemma remove_key_absent (h : list (Z * light_device_t)) p :
  lookup_handle p h = None -> remove_key p h = h.
Proof.
  unfold remove_key. induction h as [| [q e] h IH]; cbn [filter fst lookup_handle];
    [reflexivity|].
  destruct (q =? p); [discriminate|]. cbn [negb]. intros H. now rewrite IH.
Qed.

Ltac exec_heap :=
  cbn [bind run do_action trace heap g_init g_lock g_notification g_backlight
       g_buttons already_warned errno kernel syscalls fdtab
       emit set_heap set_g_init set_g_lock update_key
       with_tag with_version with_module with_close with_set_light
       common_tag common_version common_module common_close set_light
       zeroed_device fst snd];
  rewrite ?Z.eqb_refl.

Section Platform.

Variables LIGHT_ID_BACKLIGHT LIGHT_ID_BUTTONS LIGHT_ID_NOTIFICATIONS : string.
Variables HARDWARE_DEVICE_TAG EINVAL : Z.

Lemma select_handler_known (name : string) (h : handler) :
  NoDup [LIGHT_ID_BACKLIGHT; LIGHT_ID_BUTTONS; LIGHT_ID_NOTIFICATIONS] ->
  In (name, h)
     (device_table LIGHT_ID_BACKLIGHT LIGHT_ID_BUTTONS LIGHT_ID_NOTIFICATIONS) ->
  select_handler LIGHT_ID_BACKLIGHT LIGHT_ID_BUTTONS LIGHT_ID_NOTIFICATIONS name
  = Some h.
Proof.
  intros D I. unfold select_handler.
  inversion D as [| ? ? N1 D1]; subst. inversion D1 as [| ? ? N2 D2]; subst.
  cbn [In] in N1, N2.
  destruct I as [[= <- <-] | [[= <- <-] | [[= <- <-] | []]]].
  - now rewrite String.eqb_refl.
  - destruct (String.eqb_spec LIGHT_ID_BACKLIGHT LIGHT_ID_BUTTONS) as [E | _];
      [exfalso; apply N1; now left|].
    now rewrite String.eqb_refl.
  - destruct (String.eqb_spec LIGHT_ID_BACKLIGHT LIGHT_ID_NOTIFICATIONS) as [E | _];
      [exfalso; apply N1; right; now left|].
    destruct (String.eqb_spec LIGHT_ID_BUTTONS LIGHT_ID_NOTIFICATIONS) as [E | _];
      [exfalso; apply N2; now left|].
    now rewrite String.eqb_refl.
Qed.

(** The run of [open_lights] for a name it knows. *)
Lemma run_open_known (t : tid) (module : Z) (name : string) (h : handler) (w : world) :
  select_handler LIGHT_ID_BACKLIGHT LIGHT_ID_BUTTONS LIGHT_ID_NOTIFICATIONS name
  = Some h ->
  exists w',
    run t (open_lights LIGHT_ID_BACKLIGHT LIGHT_ID_BUTTONS LIGHT_ID_NOTIFICATIONS
                       HARDWARE_DEVICE_TAG EINVAL module name) w
    = Some ((0, Some (fresh_ptr (heap w))), w')
    /\ heap w' = (fresh_ptr (heap w),
                  mk_light_device HARDWARE_DEVICE_TAG 0 module true (Some h))
                 :: heap w
    /\ g_init w' = true
    /\ g_lock w' = (if g_init w then g_lock w else None)
    /\ g_backlight w' = g_backlight w
    /\ g_buttons w' = g_buttons w
    /\ g_notification w' = g_notification w
    /\ trace w' = trace w ++ [EvLog ERROR (Msg_cmd_name name)]
    /\ syscalls w' = syscalls w.
Proof.
  intros S.
  unfold open_lights, LOGE, pthread_once, init_globals, pthread_mutex_init, perform.
  rewrite S. exec_heap.
  destruct (g_init w) eqn:I; repeat (progress exec_heap);
    (eexists; split; [reflexivity|]);
    cbn [heap g_init g_lock g_backlight g_buttons g_notification trace syscalls
         set_heap set_g_lock set_g_init emit];
    rewrite ?I; repeat split.
Qed.

End Platform.

End OpenFacts.

Section Open_extras.
Import Int32 Machine Lights Observe MachineFacts OpenFacts.

Variables LIGHT_ID_BACKLIGHT LIGHT_ID_BUTTONS LIGHT_ID_NOTIFICATIONS : string.
Variables HARDWARE_DEVICE_TAG EINVAL : Z.
Variable t : tid.

(** Opening one of the three known names (taken to be distinct) returns 0
    and a handle at a non-null address that no live handle has; the handle
    carries the device tag, version 0, the module, [close_lights] and the
    callback of that name.  The once-flag is set; the mutex is initialised
    if this is the first successful open and left alone otherwise; the
    shared variables are untouched and no system call is made. *)
Theorem X12_open_known_name (module : Z) (name : string) (h : handler) (w : world) :
  NoDup [LIGHT_ID_BACKLIGHT; LIGHT_ID_BUTTONS; LIGHT_ID_NOTIFICATIONS] ->
  In (name, h)
     (device_table LIGHT_ID_BACKLIGHT LIGHT_ID_BUTTONS LIGHT_ID_NOTIFICATIONS) ->
  exists dev w',
    run t (open_lights LIGHT_ID_BACKLIGHT LIGHT_ID_BUTTONS LIGHT_ID_NOTIFICATIONS
                       HARDWARE_DEVICE_TAG EINVAL module name) w
    = Some ((0, Some dev), w')
    /\ dev <> 0
    /\ lookup_handle dev (heap w) = None
    /\ heap w' = (dev, mk_light_device HARDWARE_DEVICE_TAG 0 module true (Some h))
                 :: heap w
    /\ g_init w' = true
    /\ g_lock w' = (if g_init w then g_lock w else None)
    /\ g_backlight w' = g_backlight w
    /\ g_buttons w' = g_buttons w
    /\ g_notification w' = g_notification w
    /\ syscalls w' = syscalls w.
Proof.
  intros D I.
  pose proof (select_handler_known LIGHT_ID_BACKLIGHT LIGHT_ID_BUTTONS
                LIGHT_ID_NOTIFICATIONS name h D I) as S.
  destruct (run_open_known LIGHT_ID_BACKLIGHT LIGHT_ID_BUTTONS LIGHT_ID_NOTIFICATIONS
              HARDWARE_DEVICE_TAG EINVAL t module name h w S)
    as (w' & R & Hh & Hi & Hl & Hb & Hbt & Hn & _ & Hs).
  exists (fresh_ptr (heap w)), w'.
  split; [exact R|].
  split; [pose proof (fresh_ptr_positive (heap w)); lia|].
  split; [apply lookup_handle_fresh|].
  repeat (split; [assumption|]). assumption.
Qed.

(** Given the null pointer or a live handle, [close_lights] returns 0.
    With the null pointer it leaves the heap alone; with a live handle it
    frees that handle and no other.  It resets none of the shared state. *)
Theorem X13_close_lights (dev : Z) (w : world) :
  dev = 0 \/ is_live dev (heap w) = true ->
  exists w',
    run t (close_lights dev) w = Some (0, w')
    /\ (dev = 0 -> heap w' = heap w)
    /\ (dev <> 0 -> lookup_handle dev (heap w') = None)
    /\ (forall p, p <> dev -> lookup_handle p (heap w') = lookup_handle p (heap w))
    /\ g_init w' = g_init w
    /\ g_lock w' = g_lock w
    /\ g_backlight w' = g_backlight w
    /\ g_buttons w' = g_buttons w
    /\ g_notification w' = g_notification w
    /\ syscalls w' = syscalls w.
Proof.
  intros Hd.
  unfold close_lights, LOGV, perform, truthy. exec_heap.
  destruct (dev =? 0) eqn:E; cbn [negb]; exec_heap.
  - eexists; split; [reflexivity|].
    cbn [heap g_init g_lock g_backlight g_buttons g_notification syscalls
         set_heap emit].
    apply Z.eqb_eq in E. repeat split. intros N. contradiction.
  - rewrite E.
    assert (L : is_live dev (heap w) = true).
    { destruct Hd as [Z0 | L]; [| exact L].
      apply Z.eqb_neq in E. contradiction. }
    rewrite L.
    eexists; split; [reflexivity|].
    cbn [heap g_init g_lock g_backlight g_buttons g_notification syscalls
         set_heap emit].
    apply Z.eqb_neq in E. repeat split.
    + intros Z0. contradiction.
    + intros _. apply lookup_handle_remove_same.
    + intros p N. now apply lookup_handle_remove_other.
Qed.

(** Opening a known name and closing the handle obtained gives the heap of
    handles back as it was; the once-flag stays set. *)
Theorem X14_open_then_close (module : Z) (name : string) (h : handler) (w : world) :
  NoDup [LIGHT_ID_BACKLIGHT; LIGHT_ID_BUTTONS; LIGHT_ID_NOTIFICATIONS] ->
  In (name, h)
     (device_table LIGHT_ID_BACKLIGHT LIGHT_ID_BUTTONS LIGHT_ID_NOTIFICATIONS) ->
  exists dev w1 w2,
    run t (open_lights LIGHT_ID_BACKLIGHT LIGHT_ID_BUTTONS LIGHT_ID_NOTIFICATIONS
                       HARDWARE_DEVICE_TAG EINVAL module name) w
    = Some ((0, Some dev), w1)
    /\ run t (close_lights dev) w1 = Some (0, w2)
    /\ heap w2 = heap w
    /\ g_init w2 = true.
Proof.
  intros D I.
  pose proof (select_handler_known LIGHT_ID_BACKLIGHT LIGHT_ID_BUTTONS
                LIGHT_ID_NOTIFICATIONS name h D I) as S.
  destruct (run_open_known LIGHT_ID_BACKLIGHT LIGHT_ID_BUTTONS LIGHT_ID_NOTIFICATIONS
              HARDWARE_DEVICE_TAG EINVAL t module name h w S)
    as (w1 & R & Hh & Hi & _).
  exists (fresh_ptr (heap w)), w1.
  unfold close_lights, LOGV, perform, truthy. exec_heap.
  assert (N : (fresh_ptr (heap w) =? 0) = false).
  { apply Z.eqb_neq. pose proof (fresh_ptr_positive (heap w)). lia. }
  rewrite N. cbn [negb]. exec_heap. rewrite N, Hh.
  cbn [is_live existsb fst]. rewrite Z.eqb_refl. cbn [orb].
  eexists. split; [exact R|]. split; [reflexivity|].
  cbn [heap g_init set_heap emit]. rewrite Hi. split; [|reflexivity].
  unfold remove_key. cbn [filter fst]. rewrite Z.eqb_refl. cbn [negb].
  apply remove_key_absent, lookup_handle_fresh.
Qed.

(** Two opens in a row give two different handles, each live and bound to
    the callback of its name: handles are never shared or reused while
    live. *)
Theorem X15_two_opens_two_handles
        (module : Z) (name1 name2 : string) (h1 h2 : handler) (w : world) :
  NoDup [LIGHT_ID_BACKLIGHT; LIGHT_ID_BUTTONS; LIGHT_ID_NOTIFICATIONS] ->
  In (name1, h1)
     (device_table LIGHT_ID_BACKLIGHT LIGHT_ID_BUTTONS LIGHT_ID_NOTIFICATIONS) ->
  In (name2, h2)
     (device_table LIGHT_ID_BACKLIGHT LIGHT_ID_BUTTONS LIGHT_ID_NOTIFICATIONS) ->
  exists dev1 dev2 w1 w2,
    run t (open_lights LIGHT_ID_BACKLIGHT LIGHT_ID_BUTTONS LIGHT_ID_NOTIFICATIONS
                       HARDWARE_DEVICE_TAG EINVAL module name1) w
    = Some ((0, Some dev1), w1)
    /\ run t (open_lights LIGHT_ID_BACKLIGHT LIGHT_ID_BUTTONS LIGHT_ID_NOTIFICATIONS
                          HARDWARE_DEVICE_TAG EINVAL module name2) w1
       = Some ((0, Some dev2), w2)
    /\ dev1 <> dev2
    /\ option_map set_light (lookup_handle dev1 (heap w2)) = Some (Some h1)
    /\ option_map set_light (lookup_handle dev2 (heap w2)) = Some (Some h2).
Proof.
  intros D I1 I2.
  pose proof (select_handler_known LIGHT_ID_BACKLIGHT LIGHT_ID_BUTTONS
                LIGHT_ID_NOTIFICATIONS name1 h1 D I1) as S1.
  pose proof (select_handler_known LIGHT_ID_BACKLIGHT LIGHT_ID_BUTTONS
                LIGHT_ID_NOTIFICATIONS name2 h2 D I2) as S2.
  destruct (run_open_known LIGHT_ID_BACKLIGHT LIGHT_ID_BUTTONS LIGHT_ID_NOTIFICATIONS
              HARDWARE_DEVICE_TAG EINVAL t module name1 h1 w S1)
    as (w1 & R1 & Hh1 & _).
  destruct (run_open_known LIGHT_ID_BACKLIGHT LIGHT_ID_BUTTONS LIGHT_ID_NOTIFICATIONS
              HARDWARE_DEVICE_TAG EINVAL t module name2 h2 w1 S2)
    as (w2 & R2 & Hh2 & _).
  exists (fresh_ptr (heap w)), (fresh_ptr (heap w1)), w1, w2.
  split; [exact R1|]. split; [exact R2|].
  assert (Lt : fresh_ptr (heap w) < fresh_ptr (heap w1)).
  { apply (fresh_ptr_above _ _
             (mk_light_device HARDWARE_DEVICE_TAG 0 module true (Some h1))).
    rewrite Hh1. now left. }
  assert (N : (fresh_ptr (heap w1) =? fresh_ptr (heap w)) = false)
    by (apply Z.eqb_neq; lia).
  split; [lia|].
  set (p1 := fresh_ptr (heap w)) in *. set (p2 := fresh_ptr (heap w1)) in *.
  rewrite Hh2, Hh1. cbn [lookup_handle]. rewrite N, !Z.eqb_refl.
  split; reflexivity.
Qed.

End Open_extras.

Lemma X12_open_known_name_witness :
  NoDup ["backlight"; "buttons"; "notifications"]%string
  /\ In ("buttons"%string, Machine.Set_light_buttons)
        (Observe.device_table "backlight" "buttons" "notifications")
  /\ exists dev w',
      Machine.run 0%nat
        (Lights.open_lights "backlight" "buttons" "notifications" 0x48574454 22
           7 "buttons")
        (Machine.initial_world Machine.willing_kernel)
      = Some ((0, Some dev), w')
      /\ dev <> 0.
Proof.
  assert (D : NoDup ["backlight"; "buttons"; "notifications"]%string).
  { repeat constructor; cbn [In]; intros H;
      repeat (destruct H as [H | H]; [discriminate H|]); exact H. }
  assert (I : In ("buttons"%string, Machine.Set_light_buttons)
                 (Observe.device_table "backlight" "buttons" "notifications"))
    by (right; left; reflexivity).
  split; [exact D|]. split; [exact I|].
  destruct (X12_open_known_name "backlight" "buttons" "notifications" 0x48574454 22
              0%nat 7 "buttons" Machine.Set_light_buttons
              (Machine.initial_world Machine.willing_kernel) D I)
    as (dev & w' & R & N & _).
  exists dev, w'. split; [exact R | exact N].
Defined.

Lemma X13_close_lights_witness :
  (1 = 0 \/ Machine.is_live 1 (Machine.heap Observe.one_handle_world) = true)
  /\ exists w',
      Machine.run 0%nat (Lights.close_lights 1) Observe.one_handle_world
      = Some (0, w')
      /\ (1 <> 0 -> Observe.lookup_handle 1 (Machine.heap w') = None).
Proof.
  assert (H : 1 = 0 \/ Machine.is_live 1 (Machine.heap Observe.one_handle_world) = true)
    by (right; reflexivity).
  split; [exact H|].
  destruct (X13_close_lights 0%nat 1 Observe.one_handle_world H)
    as (w' & R & _ & N & _).
  exists w'. split; [exact R | exact N].
Defined.

Lemma X14_open_then_close_witness :
  NoDup ["backlight"; "buttons"; "notifications"]%string
  /\ In ("notifications"%string, Machine.Set_light_notifications)
        (Observe.device_table "backlight" "buttons" "notifications")
  /\ exists dev w1 w2,
      Machine.run 0%nat
        (Lights.open_lights "backlight" "buttons" "notifications" 0x48574454 22
           7 "notifications")
        (Machine.initial_world Machine.willing_kernel)
      = Some ((0, Some dev), w1)
      /\ Machine.run 0%nat (Lights.close_lights dev) w1 = Some (0, w2)
      /\ Machine.heap w2 = Machine.heap (Machine.initial_world Machine.willing_kernel)
      /\ Machine.g_init w2 = true.
Proof.
  assert (D : NoDup ["backlight"; "buttons"; "notifications"]%string).
  { repeat constructor; cbn [In]; intros H;
      repeat (destruct H as [H | H]; [discriminate H|]); exact H. }
  assert (I : In ("notifications"%string, Machine.Set_light_notifications)
                 (Observe.device_table "backlight" "buttons" "notifications"))
    by (right; right; left; reflexivity).
  split; [exact D|]. split; [exact I|].
  exact (X14_open_then_close "backlight" "buttons" "notifications" 0x48574454 22
           0%nat 7 "notifications" Machine.Set_light_notifications
           (Machine.initial_world Machine.willing_kernel) D I).
Defined.

Lemma X15_two_opens_two_handles_witness :
  NoDup ["backlight"; "buttons"; "notifications"]%string
  /\ exists dev1 dev2 w1 w2,
      Machine.run 0%nat
        (Lights.open_lights "backlight" "buttons" "notifications" 0x48574454 22
           7 "backlight")
        (Machine.initial_world Machine.willing_kernel)
      = Some ((0, Some dev1), w1)
      /\ Machine.run 0%nat
           (Lights.open_lights "backlight" "buttons" "notifications" 0x48574454 22
              7 "backlight") w1
         = Some ((0, Some dev2), w2)
      /\ dev1 <> dev2.
Proof.
  assert (D : NoDup ["backlight"; "buttons"; "notifications"]%string).
  { repeat constructor; cbn [In]; intros H;
      repeat (destruct H as [H | H]; [discriminate H|]); exact H. }
  assert (I : In ("backlight"%string, Machine.Set_light_backlight)
                 (Observe.device_table "backlight" "buttons" "notifications"))
    by (left; reflexivity).
  split; [exact D|].
  destruct (X15_two_opens_two_handles "backlight" "buttons" "notifications"
              0x48574454 22 0%nat 7 "backlight" "backlight"
              Machine.Set_light_backlight Machine.Set_light_backlight
              (Machine.initial_world Machine.willing_kernel) D I I)
    as (d1 & d2 & w1 & w2 & R1 & R2 & N & _).
  exists d1, d2, w1, w2. split; [exact R1|]. split; [exact R2 | exact N].
Defined.

(** ** Progress of the threads *)

Module ThreadMore.
Import Machine Lights Threads Observe ThreadFacts.

(** A plain primitive can always be performed. *)
Lemma plain_total {X : Type} (t : tid) (e : action X) (w : world) :
  plain e = true -> exists x w', do_action t e w = Some (x, w').
Proof.
  intros He. destruct e; try discriminate He; cbn [do_action];
    try (do 2 eexists; reflexivity).
  - destruct (g_init w); do 2 eexists; reflexivity.
  - destruct (syscall t w); do 2 eexists; reflexivity.
  - destruct (syscall t w); do 2 eexists; reflexivity.
  - destruct (syscall t w); do 2 eexists; reflexivity.
Qed.

Lemma length_replace {A : Type} (n : nat) (x : A) (l : list A) :
  List.length (replace n x l) = List.length l.
Proof.
  revert n. induction l as [| a l IH]; intros [| n]; cbn [replace List.length];
    try reflexivity.
  now rewrite IH.
Qed.

Lemma step_owner_in_pool (t : tid) (c c' : config) (l : label) :
  owner_in_pool c -> step t c = Some (l, c') -> owner_in_pool c'.
Proof.
  destruct c as [pool w]. unfold step, owner_in_pool. cbn [fst snd]. intros O.
  destruct (nth_error pool t) as [[a | X e k] |] eqn:Nth; try discriminate.
  destruct (do_action t e w) as [[x w'] |] eqn:D; try discriminate.
  intros E. injection E as <- <-. cbn [fst snd]. rewrite length_replace.
  assert (Ht : (t < List.length pool)%nat).
  { apply nth_error_Some. rewrite Nth. discriminate. }
  destruct (plain e) eqn:Pl.
  - rewrite (plain_keeps_lock _ _ _ _ _ Pl D). exact O.
  - destruct e; try discriminate Pl; cbn [do_action] in D.
    + destruct (g_lock w); try discriminate D. injection D as <- <-.
      cbn [g_lock set_g_lock]. intros o [= <-]. exact Ht.
    + destruct (g_lock w) as [o'|]; try discriminate D.
      destruct (Nat.eqb o' t); try discriminate D. injection D as <- <-.
      cbn [g_lock set_g_lock]. discriminate.
    + injection D as <- <-. cbn [g_lock set_g_lock]. discriminate.
    + destruct (p =? 0); [injection D as <- <-; exact O|].
      destruct (is_live p (heap w)); try discriminate D.
      injection D as <- <-. exact O.
Qed.

Lemma run_schedule_owner_in_pool (sched : list tid) (c : config) :
  owner_in_pool c -> owner_in_pool (snd (run_schedule sched c)).
Proof.
  revert c. induction sched as [| t sched IH]; intros c O; cbn [run_schedule].
  - exact O.
  - destruct (step t c) as [[l c'] |] eqn:S.
    + pose proof (IH c' (step_owner_in_pool t c c' l O S)) as IH'.
      destruct (run_schedule sched c') as [ls c'']. exact IH'.
    + apply IH, O.
Qed.

(** Either every thread of a pool has finished, or one of them has a
    primitive left. *)
Lemma finished_or_pending (pool : list (prog unit)) :
  forallb is_ret pool = true
  \/ exists t X (e : action X) k, nth_error pool t = Some (Vis e k).
Proof.
  induction pool as [| p pool IH]; [now left|].
  destruct p as [a | X e k].
  - destruct IH as [F | (t & X & e & k & Nth)].
    + left. exact F.
    + right. exists (S t), X, e, k. exact Nth.
  - right. exists O, X, e, k. reflexivity.
Qed.

(** A well-locked pool whose mutex owner is one of its threads is never
    stuck: when not all threads have finished, one of them can step. *)
Lemma well_locked_progress (c : config) :
  well_locked c -> owner_in_pool c ->
  (all_finished c = true /\ g_lock (snd c) = None)
  \/ exists t l c', step t c = Some (l, c').
Proof.
  destruct c as [pool w]. unfold well_locked, owner_in_pool, all_finished, step.
  cbn [fst snd]. intros WL O.
  destruct (g_lock w) as [o|] eqn:Lw.
  - (* the owner can go on *)
    right. specialize (O o eq_refl).
    destruct (nth_error pool o) as [p|] eqn:Nth;
      [| apply nth_error_None in Nth; lia].
    pose proof (WL o p Nth) as Dp.
    assert (Ho : holds o w = true) by (apply holds_iff; exact Lw).
    rewrite Ho in Dp. apply disciplined_inv in Dp.
    exists o. rewrite Nth.
    destruct p as [a | X e k]; [discriminate Dp|].
    destruct (plain e) eqn:Pl.
    + destruct (plain_total o e w Pl) as (x & w' & D). rewrite D.
      do 2 eexists. reflexivity.
    + destruct e; try discriminate Pl.
      * destruct Dp as [Dp _]. discriminate Dp.
      * cbn [do_action]. rewrite Lw, Nat.eqb_refl. do 2 eexists. reflexivity.
      * contradiction.
      * contradiction.
  - (* the mutex is free: a thread with calls left can lock *)
    destruct (finished_or_pending pool) as [F | (t & X & e & k & Nth)].
    + left. split; [exact F | reflexivity].
    + right. pose proof (WL t _ Nth) as Dp.
      assert (Ht : holds t w = false) by (unfold holds; now rewrite Lw).
      rewrite Ht in Dp. apply disciplined_inv in Dp.
      exists t. rewrite Nth.
      destruct e; try (destruct Dp as [Dp _]; discriminate Dp); try contradiction.
      cbn [do_action]. rewrite Lw. do 2 eexists. reflexivity.
Qed.

End ThreadMore.

Section Thread_extras.
Import Machine Lights Threads Observe ThreadFacts ThreadMore.

(** The handlers cannot deadlock: after any interleaving of threads making
    [set_light] calls, started with the mutex free, either every thread has
    made all its calls and the mutex is free, or some thread can perform
    its next primitive. *)
Theorem X16_no_deadlock
        (callss : list (list call)) (sched : list tid) (w : world) :
  g_lock w = None ->
  (all_finished (snd (run_schedule sched (map thread_prog callss, w))) = true
   /\ g_lock (snd (snd (run_schedule sched (map thread_prog callss, w)))) = None)
  \/ exists t l c',
      step t (snd (run_schedule sched (map thread_prog callss, w))) = Some (l, c').
Proof.
  intros L. apply well_locked_progress.
  - apply run_schedule_serialized, well_locked_start, L.
  - apply run_schedule_owner_in_pool. intros o. cbn [fst snd]. rewrite L.
    discriminate.
Qed.

End Thread_extras.

Lemma X16_no_deadlock_witness :
  Machine.g_lock (Machine.initial_world Machine.willing_kernel) = None
  /\ ((Observe.all_finished
         (snd (Threads.run_schedule [0; 0; 1]%nat
                 (map Threads.thread_prog Threads.two_callers,
                  Machine.initial_world Machine.willing_kernel))) = true
       /\ Machine.g_lock
            (snd (snd (Threads.run_schedule [0; 0; 1]%nat
                         (map Threads.thread_prog Threads.two_callers,
                          Machine.initial_world Machine.willing_kernel)))) = None)
      \/ exists t l c',
          Threads.step t
            (snd (Threads.run_schedule [0; 0; 1]%nat
                    (map Threads.thread_prog Threads.two_callers,
                     Machine.initial_world Machine.willing_kernel)))
          = Some (l, c')).
Proof.
  split; [reflexivity|].
  exact (X16_no_deadlock Threads.two_callers [0; 0; 1]%nat
           (Machine.initial_world Machine.willing_kernel) eq_refl).
Defined.

(** ** The error code of a failed write *)

Section Errno_extras.
Import Machine Lights MachineFacts.

(** When the open succeeds and the write fails, [write_int] reads [errno]
    only after [close]: it returns minus the error number of the write if
    the close succeeds, and minus the error number of the close if the
    close fails too. *)
Theorem X17_write_error_read_after_close
        (t : tid) (path : string) (value : Z) (w : world) (fd : N) (e2 : positive) :
  kernel w (syscalls w) = SysOk fd ->
  kernel w (S (syscalls w)) = SysErr e2 ->
  exists w',
    run t (write_int path value) w
    = Some (match kernel w (S (S (syscalls w))) with
            | SysOk _ => - Z.pos e2
            | SysErr e3 => - Z.pos e3
            end, w').
Proof.
  intros K1 K2.
  destruct (kernel w (S (S (syscalls w)))) as [c | e3] eqn:K3;
    unfold write_int, LOGV, LOGE, perform;
    repeat (exec; unfold syscall; exec; rewrite ?K1, ?K2, ?K3);
    eexists; reflexivity.
Qed.

End Errno_extras.

Lemma X17_write_error_read_after_close_witness :
  exists w',
    Machine.run 0%nat (Lights.write_int Lights.LCD_FILE 255)
      (Machine.initial_world
         (fun n => match n with
                   | O => Machine.SysOk 3
                   | S O => Machine.SysErr 28
                   | _ => Machine.SysErr 5
                   end))
    = Some (- 5, w').
Proof.
  exact (X17_write_error_read_after_close 0%nat Lights.LCD_FILE 255
           (Machine.initial_world
              (fun n => match n with
                        | O => Machine.SysOk 3
                        | S O => Machine.SysErr 28
                        | _ => Machine.SysErr 5
                        end))
           3%N 28%positive eq_refl eq_refl).
Defined.
